(** * Prediction-market unification pipeline: price parsing, payload
      recovery, aggregation and report building.

    Shallow embedding of [tools.py] ([PredictionMarketScraper._parse_price])
    and of [main.py] ([PredictionMarketFlow._process_csv_output],
    [_extract_products_manually], [_create_fallback_csv], [run_flow] and the
    three flow stages).

    Conventions of the embedding.
    - A Python [str] is the list of its Unicode code points.
    - A Python [float] is an IEEE 754 binary64 value, represented by
      [spec_float] with precision 53 and maximal exponent 1024; every
      arithmetic operation rounds to nearest, ties to even.
    - A raised exception is the left injection of a sum type; [try/except]
      is a case analysis on it.
    - Console output ([print], [logger]) is not modelled. *)

From Stdlib Require Import ZArith NArith PArith List Bool Lia String Ascii.
From Stdlib Require Import Floats.SpecFloat.
From Stdlib Require Import Sorting.Permutation Sorting.Sorted.
Import ListNotations.

Local Open Scope Z_scope.

(* ================================================================== *)
(** * Python strings *)

Definition char := N.
Definition str := list char.

(** An ASCII literal, as the list of its code points. *)
Definition lit (s : string) : str :=
  List.map N_of_ascii (list_ascii_of_string s).

Definition char_eqb (a b : char) : bool := N.eqb a b.

Fixpoint str_eqb (a b : str) : bool :=
  match a, b with
  | [], [] => true
  | x :: a', y :: b' => char_eqb x y && str_eqb a' b'
  | _, _ => false
  end.

(** [starts_with p s]: [s.startswith(p)]. *)
Fixpoint starts_with (p s : str) : bool :=
  match p, s with
  | [], _ => true
  | x :: p', y :: s' => char_eqb x y && starts_with p' s'
  | _ :: _, [] => false
  end.

(** [sub in s] for a pattern [sub]. *)
Fixpoint str_contains (sub s : str) : bool :=
  starts_with sub s ||
  match s with
  | [] => false
  | _ :: s' => str_contains sub s'
  end.

(** [s.replace(old, new)] for a non-empty [old]: occurrences are replaced
    from left to right and do not overlap.  [skip] counts the characters
    of the occurrence just replaced that are still to be dropped. *)
Fixpoint replace_from (old new s : str) (skip : nat) : str :=
  match s with
  | [] => []
  | c :: s' =>
      match skip with
      | S k => replace_from old new s' k
      | O =>
          if starts_with old s
          then new ++ replace_from old new s' (Nat.pred (List.length old))
          else c :: replace_from old new s' O
      end
  end.

Definition str_replace (old new s : str) : str := replace_from old new s 0.

(** ** Unicode tables of the runtime (Unicode 14) *)

(** First code point of every block of ten decimal digits (category Nd). *)
Definition decimal_blocks : list N :=
  [ 0x30; 0x660; 0x6f0; 0x7c0; 0x966; 0x9e6; 0xa66; 0xae6; 0xb66; 0xbe6;
    0xc66; 0xce6; 0xd66; 0xde6; 0xe50; 0xed0; 0xf20; 0x1040; 0x1090;
    0x17e0; 0x1810; 0x1946; 0x19d0; 0x1a80; 0x1a90; 0x1b50; 0x1bb0;
    0x1c40; 0x1c50; 0xa620; 0xa8d0; 0xa900; 0xa9d0; 0xa9f0; 0xaa50;
    0xabf0; 0xff10; 0x104a0; 0x10d30; 0x11066; 0x110f0; 0x11136; 0x111d0;
    0x112f0; 0x11450; 0x114d0; 0x11650; 0x116c0; 0x11730; 0x118e0;
    0x11950; 0x11c50; 0x11d50; 0x11da0; 0x16a60; 0x16ac0; 0x16b50;
    0x1d7ce; 0x1d7d8; 0x1d7e2; 0x1d7ec; 0x1d7f6; 0x1e140; 0x1e2f0;
    0x1e950; 0x1fbf0 ]%N.

Fixpoint decimal_in (blocks : list N) (c : char) : option N :=
  match blocks with
  | [] => None
  | b :: bs =>
      if (N.leb b c && N.ltb c (b + 10))%N then Some (c - b)%N
      else decimal_in bs c
  end.

(** The decimal value of a character, when it is a decimal digit; this is
    what [\d] matches and what [float] reads as a digit. *)
Definition decimal_value (c : char) : option N := decimal_in decimal_blocks c.

Definition is_decimal (c : char) : bool :=
  match decimal_value c with Some _ => true | None => false end.

(** [str.isspace] on one character; also the class [\s]. *)
Definition is_space (c : char) : bool :=
  ((9 <=? c) && (c <=? 13) || (28 <=? c) && (c <=? 32)
   || (c =? 133) || (c =? 160) || (c =? 5760)
   || (8192 <=? c) && (c <=? 8202)
   || (c =? 8232) || (c =? 8233) || (c =? 8239) || (c =? 8287)
   || (c =? 12288))%N.

(* ================================================================== *)
(** * Python floats (binary64) *)

Definition float := spec_float.

Definition prec : Z := 53.
Definition emax : Z := 1024.

Definition fadd : float -> float -> float := SFadd prec emax.
Definition fsub : float -> float -> float := SFsub prec emax.
Definition fmul : float -> float -> float := SFmul prec emax.
Definition fdiv : float -> float -> float := SFdiv prec emax.
Definition fsqrt : float -> float := SFsqrt prec emax.
Definition flt : float -> float -> bool := SFltb.
Definition fle : float -> float -> bool := SFleb.
Definition feq : float -> float -> bool := SFeqb.

Definition is_nan (x : float) : bool :=
  match x with S754_nan => true | _ => false end.

Definition is_inf (x : float) : bool :=
  match x with S754_infinity _ => true | _ => false end.

(** The binary64 value nearest to the integer [z]. *)
Definition float_of_Z (z : Z) : float := binary_normalize prec emax z 0 false.

(** The binary64 value nearest to [(-1)^neg * m * 10^e], [m >= 0]: what a
    correctly rounded decimal-to-binary conversion returns. *)
Definition float_of_decimal (neg : bool) (m : Z) (e : Z) : float :=
  match m with
  | Zpos p =>
      if 0 <=? e
      then binary_normalize prec emax
             (cond_Zopp neg (m * 10 ^ e)) 0 false
      else fdiv (S754_finite neg p 0)
                (S754_finite false (Z.to_pos (10 ^ (- e))) 0)
  | _ => S754_zero neg
  end.

(** Decimal literals of the source. *)
Definition f0_01 : float := float_of_decimal false 1 (-2).
Definition f0_99 : float := float_of_decimal false 99 (-2).
Definition f0_5 : float := float_of_decimal false 5 (-1).
Definition f0_65 : float := float_of_decimal false 65 (-2).

(** ** Comparisons and the two-argument [min] and [max]

    [min(a, b)] keeps [a] unless [b < a]; [max(a, b)] keeps [a] unless
    [b > a]. *)
Definition py_min2 (a b : float) : float := if flt b a then b else a.
Definition py_max2 (a b : float) : float := if flt a b then b else a.

(* ================================================================== *)
(** * Exceptions *)

Inductive exn : Type :=
| TypeError | ValueError | OverflowError | AttributeError | TaskError.

Definition result (A : Type) : Type := (exn + A)%type.

Definition raise {A : Type} (e : exn) : result A := inl e.
Definition ret {A : Type} (a : A) : result A := inr a.

Definition bind {A B : Type} (r : result A) (k : A -> result B) : result B :=
  match r with
  | inl e => inl e
  | inr a => k a
  end.

Notation "x <- r ;; k" := (bind r (fun x => k))
  (at level 61, r at next level, right associativity).

(* ================================================================== *)
(** * [float(s)] for a string

    The runtime first maps the text to ASCII (non-ASCII spaces become a
    blank, non-ASCII decimal digits their ASCII digit, and any other
    non-ASCII character ends the text with a question mark), strips ASCII
    white space at both ends, checks and drops underscores between digits,
    and then reads either a decimal number with an optional exponent or
    one of [inf], [infinity], [nan]; the whole text must be consumed. *)

Fixpoint to_ascii (s : str) : str :=
  match s with
  | [] => []
  | c :: s' =>
      if (c <? 127)%N then c :: to_ascii s'
      else if is_space c then 32%N :: to_ascii s'
      else match decimal_value c with
           | Some d => (48 + d)%N :: to_ascii s'
           | None => [63%N]
           end
  end.

Definition is_ascii_space (c : char) : bool :=
  ((9 <=? c) && (c <=? 13) || (c =? 32))%N.

Definition is_ascii_digit (c : char) : bool := ((48 <=? c) && (c <=? 57))%N.

Fixpoint drop_while (p : char -> bool) (s : str) : str :=
  match s with
  | [] => []
  | c :: s' => if p c then drop_while p s' else s
  end.

Definition strip_ascii (s : str) : str :=
  List.rev (drop_while is_ascii_space (List.rev (drop_while is_ascii_space s))).

(** Longest prefix of characters satisfying [p], and the rest. *)
Fixpoint span (p : char -> bool) (s : str) : str * str :=
  match s with
  | [] => ([], [])
  | c :: s' =>
      if p c then let (a, b) := span p s' in (c :: a, b) else ([], s)
  end.

(** An underscore must stand between two digits; [prev] is the character
    before [s] (NUL at the start). *)
Fixpoint drop_underscores (prev : char) (s : str) : option str :=
  match s with
  | [] => if (prev =? 95)%N then None else Some []
  | c :: s' =>
      if (c =? 95)%N
      then if is_ascii_digit prev then drop_underscores c s' else None
      else if (prev =? 95)%N && negb (is_ascii_digit c) then None
      else option_map (cons c) (drop_underscores c s')
  end.

Definition digits_value (ds : str) : Z :=
  List.fold_left (fun acc c => acc * 10 + Z.of_N (c - 48)) ds 0.

Definition parse_sign (s : str) : bool * str :=
  match s with
  | 45%N :: s' => (true, s')
  | 43%N :: s' => (false, s')
  | _ => (false, s)
  end.

(** The exponent part, which must be the whole remainder of the text. *)
Definition parse_exponent (s : str) : option Z :=
  match s with
  | [] => Some 0
  | c :: s1 =>
      if ((c =? 101) || (c =? 69))%N then
        let (neg, s2) := parse_sign s1 in
        let (ds, rest) := span is_ascii_digit s2 in
        match ds, rest with
        | _ :: _, [] => Some (cond_Zopp neg (digits_value ds))
        | _, _ => None
        end
      else None
  end.

Definition parse_decimal (s : str) : option float :=
  let (neg, s1) := parse_sign s in
  let (ip, s2) := span is_ascii_digit s1 in
  let (fp, s3) :=
    match s2 with
    | 46%N :: s2' => span is_ascii_digit s2'
    | _ => ([], s2)
    end in
  match ip ++ fp with
  | [] => None
  | ds =>
      match parse_exponent s3 with
      | Some e =>
          Some (float_of_decimal neg (digits_value ds)
                  (e - Z.of_nat (List.length fp)))
      | None => None
      end
  end.

Definition ascii_lower (c : char) : char :=
  if ((65 <=? c) && (c <=? 90))%N then (c + 32)%N else c.

Definition parse_inf_nan (s : str) : option float :=
  let (neg, s1) := parse_sign s in
  let l := List.map ascii_lower s1 in
  if str_eqb l (lit "inf") || str_eqb l (lit "infinity")
  then Some (S754_infinity neg)
  else if str_eqb l (lit "nan") then Some S754_nan
  else None.

Definition float_of_str (s : str) : option float :=
  match drop_underscores 0%N (strip_ascii (to_ascii s)) with
  | None => None
  | Some b =>
      match parse_decimal b with
      | Some f => Some f
      | None => parse_inf_nan b
      end
  end.

(* ================================================================== *)
(** * Regular-expression scanning

    [re.findall] with a pattern that has one group: the text is scanned
    from left to right, a match at the current position contributes its
    group and the scan resumes after the match, otherwise it moves one
    character on.  A matcher returns the group and the length of the whole
    match (at least one for every pattern of the program). *)

Definition matcher := str -> option (str * nat).

Fixpoint findall_from (m : matcher) (s : str) (skip : nat) : list str :=
  match s with
  | [] => []
  | _ :: s' =>
      match skip with
      | S k => findall_from m s' k
      | O =>
          match m s with
          | Some (g, n) => g :: findall_from m s' (Nat.pred n)
          | None => findall_from m s' O
          end
      end
  end.

Definition findall (m : matcher) (s : str) : list str := findall_from m s 0.

(** The pattern of [_parse_price]: one or more decimal digits, an optional
    full stop, then any number of decimal digits; the group is the whole
    match. *)
Definition number_pattern : matcher := fun s =>
  let (ip, r) := span is_decimal s in
  match ip with
  | [] => None
  | _ :: _ =>
      let w :=
        match r with
        | 46%N :: r' => ip ++ 46%N :: fst (span is_decimal r')
        | _ => ip
        end in
      Some (w, List.length w)
  end.

(* ================================================================== *)
(** * [PredictionMarketScraper._parse_price] (tools.py) *)

(** The mis-encoded cent sign of the source: U+00C2 followed by U+00A2. *)
Definition cent_literal : str := [0xC2; 0xA2]%N.

(** The matches of the number pattern in the text without dollar, cent
    and percent signs. *)
Definition price_matches (price_text : str) : list str :=
  findall number_pattern
    (str_replace (lit "%") []
       (str_replace cent_literal []
          (str_replace (lit "$") [] price_text))).

(** The body of the [try] block. *)
Definition parse_price_body (price_text : str) : result float :=
  match price_matches price_text with
  | m0 :: _ =>
      price <- match float_of_str m0 with
               | Some f => ret f
               | None => raise ValueError
               end ;;
      let price :=
        if str_contains (lit "%") price_text || flt (float_of_Z 1) price
        then fdiv price (float_of_Z 100)
        else price in
      ret (py_max2 f0_01 (py_min2 f0_99 price))
  | [] => ret f0_5
  end.

Definition _parse_price (price_text : str) : float :=
  match parse_price_body price_text with
  | inr price => price
  | inl _ => f0_5
  end.

(* ================================================================== *)
(** * Python values

    The values [json.loads] produces and the program builds: a dictionary
    is the list of its items in insertion order (keys distinct). *)

#[warnings="-register-all"]
Inductive value : Type :=
| VNone
| VBool (b : bool)
| VInt (z : Z)
| VFloat (f : float)
| VStr (s : str)
| VList (l : list value)
| VDict (d : list (str * value)).

Fixpoint dict_lookup (k : str) (d : list (str * value)) : option value :=
  match d with
  | [] => None
  | (k', v) :: d' => if str_eqb k k' then Some v else dict_lookup k d'
  end.

(** [d.get(k, default)]. *)
Definition dict_get (k : str) (default : value) (d : list (str * value))
  : value :=
  match dict_lookup k d with
  | Some v => v
  | None => default
  end.

(** Truth value of an object, as [if x:] and [not x] use it. *)
Definition truthy (v : value) : bool :=
  match v with
  | VNone => false
  | VBool b => b
  | VInt z => negb (z =? 0)
  | VFloat f => negb (feq f (S754_zero false))
  | VStr s => match s with [] => false | _ => true end
  | VList l => match l with [] => false | _ => true end
  | VDict d => match d with [] => false | _ => true end
  end.

(** The items a [for] loop visits. *)
Definition iterate (v : value) : result (list value) :=
  match v with
  | VList l => ret l
  | VStr s => ret (List.map (fun c => VStr [c]) s)
  | VDict d => ret (List.map (fun kv => VStr (fst kv)) d)
  | _ => raise TypeError
  end.

(** [len(v)]. *)
Definition py_len (v : value) : result Z :=
  match v with
  | VList l => ret (Z.of_nat (List.length l))
  | VStr s => ret (Z.of_nat (List.length s))
  | VDict d => ret (Z.of_nat (List.length d))
  | _ => raise TypeError
  end.

(** [float(v)]. *)
Definition py_float (v : value) : result float :=
  match v with
  | VFloat f => ret f
  | VInt z =>
      let f := float_of_Z z in
      if is_inf f then raise OverflowError else ret f
  | VBool b => ret (float_of_Z (if b then 1 else 0))
  | VStr s =>
      match float_of_str s with
      | Some f => ret f
      | None => raise ValueError
      end
  | VNone | VList _ | VDict _ => raise TypeError
  end.

(** [v > 0]. *)
Definition py_gt_zero (v : value) : result bool :=
  match v with
  | VInt z => ret (0 <? z)
  | VBool b => ret b
  | VFloat f => ret (flt (S754_zero false) f)
  | _ => raise TypeError
  end.

(** [sep.join(items)]: every item must be a string. *)
Fixpoint join_strs (sep : str) (items : list str) : str :=
  match items with
  | [] => []
  | [s] => s
  | s :: rest => s ++ sep ++ join_strs sep rest
  end.

Fixpoint all_strs (items : list value) : result (list str) :=
  match items with
  | [] => ret []
  | VStr s :: rest => l <- all_strs rest ;; ret (s :: l)
  | _ :: _ => raise TypeError
  end.

Definition py_join (sep : str) (items : list value) : result str :=
  l <- all_strs items ;; ret (join_strs sep l).

(** ** The parts of the runtime that are taken as given

    [str(x)] of an object that is not a string, [str.lower] and
    [json.loads] ([None] stands for its decoding error).  None of them
    raises on the values of this program. *)
Record Runtime : Type := {
  py_repr : value -> str;
  str_lower : str -> str;
  json_loads : str -> option value
}.

Definition py_str (rt : Runtime) (v : value) : str :=
  match v with
  | VStr s => s
  | _ => py_repr rt v
  end.

(* ================================================================== *)
(** * Numbers of a report row and their rounding *)

(** A number is a Python [int], a Python [float], or a [numpy.float64]
    (what [Series.std] returns). *)
Inductive num : Type :=
| PyInt (z : Z)
| PyFloat (f : float)
| NpFloat (f : float).

(** [a / b] rounded to the nearest integer, ties to even ([b > 0]). *)
Definition div_half_even (a b : Z) : Z :=
  let q := a / b in
  match (2 * (a mod b)) ?= b with
  | Lt => q
  | Gt => q + 1
  | Eq => if Z.even q then q else q + 1
  end.

(** [round(x, ndigits)] of a Python float, [ndigits >= 0]: the decimal
    with [ndigits] places nearest to the exact value of [x], converted
    back to binary64. *)
Definition py_round_float (x : float) (ndigits : Z) : float :=
  match x with
  | S754_finite s m e =>
      if 0 <=? e then x
      else float_of_decimal s
             (div_half_even (Zpos m * 10 ^ ndigits) (2 ^ (- e)))
             (- ndigits)
  | _ => x
  end.

(** Round to the nearest integral float, ties to even. *)
Definition f_rint (x : float) : float :=
  match x with
  | S754_finite s m e =>
      if 0 <=? e then x
      else binary_normalize prec emax
             (cond_Zopp s (div_half_even (Zpos m) (2 ^ (- e)))) 0 s
  | _ => x
  end.

(** [round(x, ndigits)] of a [numpy.float64]: scale, round to an integer,
    scale back. *)
Definition np_round_float (x : float) (ndigits : Z) : float :=
  let p := float_of_Z (10 ^ ndigits) in
  fdiv (f_rint (fmul x p)) p.

Definition py_round (x : num) (ndigits : Z) : num :=
  match x with
  | PyInt z => PyInt z
  | PyFloat f => PyFloat (py_round_float f ndigits)
  | NpFloat f => NpFloat (np_round_float f ndigits)
  end.

(** The float a number stands for in a numeric column. *)
Definition num_float (x : num) : float :=
  match x with
  | PyInt z => float_of_Z z
  | PyFloat f => f
  | NpFloat f => f
  end.

(** ** Sums, extremes and the sample standard deviation *)

(** [sum(xs)]: the accumulator starts at zero and adds from the left. *)
Definition py_sum (xs : list float) : float :=
  List.fold_left fadd xs (S754_zero false).

(** [min(xs)] and [max(xs)] of a non-empty list: the first element is kept
    until a strictly smaller (larger) one is met. *)
Definition py_min (x : float) (xs : list float) : float :=
  List.fold_left py_min2 xs x.

Definition py_max (x : float) (xs : list float) : float :=
  List.fold_left py_max2 xs x.

(** [pandas.Series(xs).std()]: sample standard deviation (divisor
    [n - 1]) of the entries that are not NaN, by the two-pass formula;
    NaN when fewer than two entries remain. *)
Definition series_std (xs : list float) : float :=
  let vals := List.filter (fun x => negb (is_nan x)) xs in
  let count := Z.of_nat (List.length vals) in
  if count <=? 1 then S754_nan
  else
    let avg := fdiv (py_sum vals) (float_of_Z count) in
    let sqr := List.map (fun v => let d := fsub avg v in fmul d d) vals in
    fsqrt (fdiv (py_sum sqr) (float_of_Z (count - 1))).

(* ================================================================== *)
(** * [PredictionMarketFlow._extract_products_manually] (main.py) *)

Definition quote : char := 34%N.

(** The text [name] between double quotes, followed by a colon. *)
Definition key_marker (name : string) : str :=
  quote :: lit name ++ [quote; 58%N].

(** A key marker, white space, then a double-quoted text without double
    quotes: the group is the quoted text. *)
Definition quoted_field (name : string) : matcher := fun s =>
  let k := key_marker name in
  if starts_with k s then
    let r := List.skipn (List.length k) s in
    let (ws, r1) := span is_space r in
    match r1 with
    | c :: r2 =>
        if char_eqb c quote then
          let (g, r3) := span (fun x => negb (char_eqb x quote)) r2 in
          match r3 with
          | _ :: _ =>
              Some (g, (List.length k + List.length ws + 1
                        + List.length g + 1)%nat)
          | [] => None
          end
        else None
    | [] => None
    end
  else None.

(** A key marker, white space, then one or more characters that are
    decimal digits or full stops: the group is that run. *)
Definition numeric_field (name : string) : matcher := fun s =>
  let k := key_marker name in
  if starts_with k s then
    let r := List.skipn (List.length k) s in
    let (ws, r1) := span is_space r in
    let (g, _) := span (fun x => is_decimal x || char_eqb x 46%N) r1 in
    match g with
    | _ :: _ => Some (g, (List.length k + List.length ws + List.length g)%nat)
    | [] => None
    end
  else None.

Definition name_pattern : matcher := quoted_field "unified_name".
Definition price_pattern : matcher := numeric_field "average_price".
Definition confidence_pattern : matcher := numeric_field "confidence_level".

(** [float(xs[i]) if i < len(xs) else 0]. *)
Definition float_at (xs : list str) (i : nat) : result value :=
  match List.nth_error xs i with
  | Some x => f <- py_float (VStr x) ;; ret (VFloat f)
  | None => ret (VInt 0)
  end.

(** The loop over [enumerate(names)], [i] being the index of the head. *)
Fixpoint build_groups (names prices confidences : list str) (i : nat)
  : result (list value) :=
  match names with
  | [] => ret []
  | name :: rest =>
      p <- float_at prices i ;;
      c <- float_at confidences i ;;
      gs <- build_groups rest prices confidences (S i) ;;
      ret (VDict [ (lit "unified_name", VStr name);
                   (lit "products", VList [VStr name]);
                   (lit "average_price", p);
                   (lit "confidence_level", c);
                   (lit "sources", VList [VStr (lit "extracted")]) ] :: gs)
  end.

Definition _extract_products_manually (raw_content : str)
  : result (list value) :=
  let names := findall name_pattern raw_content in
  let prices := findall price_pattern raw_content in
  let confidences := findall confidence_pattern raw_content in
  build_groups names prices confidences 0.

(* ================================================================== *)
(** * Report rows and files *)

Record row : Type := {
  unified_name : str;
  source_products : str;
  average_price : num;
  price_variance : num;
  confidence_level : num;
  source_count : Z;
  sources : str;
  category : str;
  min_price : num;
  max_price : num
}.

(** The summary block written above the table. *)
Record summary : Type := {
  total_products : Z;
  average_confidence : float;
  high_confidence_products : Z;
  multi_source_products : Z
}.

Record csv_file : Type := {
  summary_block : option summary;
  table : list row
}.

(** The files written so far, the latest first. *)
Definition filesystem := list (str * csv_file).

Definition write_file (path : str) (f : csv_file) (fs : filesystem)
  : filesystem := (path, f) :: fs.

Fixpoint read_file (path : str) (fs : filesystem) : option csv_file :=
  match fs with
  | [] => None
  | (p, f) :: fs' => if str_eqb path p then Some f else read_file path fs'
  end.

Definition main_csv_path : str := lit "unified_prediction_markets.csv".
Definition fallback_csv_path : str :=
  lit "unified_prediction_markets_fallback.csv".
Definition error_csv_path : str := lit "unified_prediction_markets_error.csv".

(** ** [_create_fallback_csv] *)

Definition fallback_row : row := {|
  unified_name := lit "Error in processing";
  source_products := lit "N/A";
  average_price := PyInt 0;
  price_variance := PyInt 0;
  confidence_level := PyInt 0;
  source_count := 0;
  sources := lit "N/A";
  category := lit "Error";
  min_price := PyInt 0;
  max_price := PyInt 0
|}.

Definition _create_fallback_csv (fs : filesystem) : str * filesystem :=
  (fallback_csv_path,
   write_file fallback_csv_path
     {| summary_block := None; table := [fallback_row] |} fs).

(* ================================================================== *)
(** * [PredictionMarketFlow._process_csv_output] (main.py) *)

(** ** Members of a group: names and individually parsed prices *)

(** The loop over [products]; a price that [float] rejects with
    [ValueError] or [TypeError] is left out, any other exception goes
    on. *)
Fixpoint collect_members (rt : Runtime) (products : list value)
    (product_names : list value) (prices : list float)
  : result (list value * list float) :=
  match products with
  | [] => ret (product_names, prices)
  | product :: rest =>
      match product with
      | VStr _ =>
          collect_members rt rest (product_names ++ [product]) prices
      | VDict d =>
          let name := dict_get (lit "name") (VStr (py_str rt product)) d in
          let product_names := product_names ++ [name] in
          match dict_lookup (lit "price") d with
          | Some pv =>
              match py_float pv with
              | inr price =>
                  collect_members rt rest product_names (prices ++ [price])
              | inl ValueError | inl TypeError =>
                  collect_members rt rest product_names prices
              | inl e => raise e
              end
          | None => collect_members rt rest product_names prices
          end
      | _ =>
          collect_members rt rest
            (product_names ++ [VStr (py_str rt product)]) prices
      end
  end.

Definition members (rt : Runtime) (products : value)
  : result (list value * list float) :=
  if truthy products
  then ps <- iterate products ;; collect_members rt ps [] []
  else ret ([], []).

(** ** Price statistics of a group *)

Module Stats.

Record t : Type := {
  avg_price : num;
  min_price : num;
  max_price : num;
  price_variance : num
}.

End Stats.

Definition compute_stats (prices : list float)
    (product_group : list (str * value)) : result Stats.t :=
  match prices with
  | p :: ps =>
      ret {| Stats.avg_price :=
               PyFloat (fdiv (py_sum prices)
                          (float_of_Z (Z.of_nat (List.length prices))));
             Stats.min_price := PyFloat (py_min p ps);
             Stats.max_price := PyFloat (py_max p ps);
             Stats.price_variance :=
               if (1 <? List.length prices)%nat
               then NpFloat (series_std prices)
               else PyInt 0 |}
  | [] =>
      let group_avg_price :=
        dict_get (lit "average_price") (VInt 0) product_group in
      positive <- py_gt_zero group_avg_price ;;
      if positive then
        avg <- py_float group_avg_price ;;
        ret {| Stats.avg_price := PyFloat avg;
               Stats.min_price := PyFloat avg;
               Stats.max_price := PyFloat avg;
               Stats.price_variance := PyInt 0 |}
      else
        ret {| Stats.avg_price := PyInt 0;
               Stats.min_price := PyInt 0;
               Stats.max_price := PyInt 0;
               Stats.price_variance := PyInt 0 |}
  end.

(** ** Category of a unified name *)

Definition any_keyword (keywords : list string) (text : str) : bool :=
  List.existsb (fun k => str_contains (lit k) text) keywords.

Definition categorize (unified_name_lower : str) : str :=
  if any_keyword ["bitcoin"; "ethereum"; "solana"; "crypto"; "financial";
                  "market"]%string unified_name_lower
  then lit "Financial Markets"
  else if any_keyword ["election"; "presidential"; "politics"]%string
            unified_name_lower
  then lit "Politics"
  else if any_keyword ["world cup"; "super bowl"; "world series"; "uefa";
                       "champions"; "f1"; "nfl"; "sports"]%string
            unified_name_lower
  then lit "Sports"
  else if str_contains (lit "nobel") unified_name_lower
  then lit "Awards"
  else lit "Other".

(** ** One group, one row *)

Definition process_group (rt : Runtime) (product_group : list (str * value))
  : result row :=
  let products := dict_get (lit "products") (VList []) product_group in
  m <- members rt products ;;
  let (product_names, prices) := m in
  st <- compute_stats prices product_group ;;
  let name :=
    py_str rt (dict_get (lit "unified_name") (VStr (lit "Unknown"))
                 product_group) in
  let cat := categorize (str_lower rt name) in
  joined_names <- py_join (lit "; ") product_names ;;
  confidence <-
    py_float (dict_get (lit "confidence_level") (VInt 0) product_group) ;;
  count <- py_len products ;;
  srcs <- iterate (dict_get (lit "sources") (VList []) product_group) ;;
  ret {| unified_name := name;
         source_products := joined_names;
         average_price := py_round (Stats.avg_price st) 4;
         price_variance := py_round (Stats.price_variance st) 4;
         confidence_level := PyFloat (py_round_float confidence 2);
         source_count := count;
         sources := join_strs (lit "; ") (List.map (py_str rt) srcs);
         category := cat;
         min_price := py_round (Stats.min_price st) 4;
         max_price := py_round (Stats.max_price st) 4 |}.

(** The loop over the groups: an item that is not a dictionary is
    skipped, an exception ends the loop. *)
Fixpoint process_groups (rt : Runtime) (groups : list value)
    (rows : list row) : result (list row) :=
  match groups with
  | [] => ret rows
  | VDict product_group :: rest =>
      r <- process_group rt product_group ;;
      process_groups rt rest (rows ++ [r])
  | _ :: rest => process_groups rt rest rows
  end.

(** ** Sorting the rows

    [DataFrame.sort_values] on [confidence_level] then [source_count],
    both descending: a stable sort, rows without a confidence (NaN)
    last.  [row_before a b] says that [a] may stand before [b]. *)

Definition row_before (a b : row) : bool :=
  let ca := num_float (confidence_level a) in
  let cb := num_float (confidence_level b) in
  if is_nan cb then
    if is_nan ca then source_count b <=? source_count a else true
  else if is_nan ca then false
  else if flt cb ca then true
  else if flt ca cb then false
  else source_count b <=? source_count a.

Fixpoint insert_row (r : row) (sorted : list row) : list row :=
  match sorted with
  | [] => [r]
  | x :: rest =>
      if row_before r x then r :: sorted else x :: insert_row r rest
  end.

Definition sort_values (rows : list row) : list row :=
  List.fold_right insert_row [] rows.

(** ** Summary statistics *)

(** [Series.mean()]: the mean of the entries that are not NaN. *)
Definition series_mean (xs : list float) : float :=
  let vals := List.filter (fun x => negb (is_nan x)) xs in
  fdiv (py_sum vals) (float_of_Z (Z.of_nat (List.length vals))).

Definition count_rows (p : row -> bool) (rows : list row) : Z :=
  Z.of_nat (List.length (List.filter p rows)).

Definition summarize (df : list row) : summary := {|
  total_products := Z.of_nat (List.length df);
  average_confidence :=
    series_mean (List.map (fun r => num_float (confidence_level r)) df);
  high_confidence_products :=
    count_rows (fun r => flt (float_of_Z 80) (num_float (confidence_level r)))
      df;
  multi_source_products := count_rows (fun r => 1 <? source_count r) df
|}.

(** ** Locating the JSON text in the raw answer *)

(** [s.find(sub)], counting from index [i] of the head. *)
Fixpoint find_from (sub s : str) (i : nat) : option nat :=
  if starts_with sub s then Some i
  else match s with
       | [] => None
       | _ :: s' => find_from sub s' (S i)
       end.

Definition str_find (sub s : str) : option nat := find_from sub s 0.

(** The index of the last opening brace of [s], counting from [i]. *)
Fixpoint last_brace (s : str) (i : nat) (found : option nat) : option nat :=
  match s with
  | [] => found
  | c :: s' =>
      last_brace s' (S i) (if char_eqb c 123%N then Some i else found)
  end.

(** The loop [for i in range(json_start, -1, -1)]: the nearest opening
    brace at or before [json_start], or [json_start] itself. *)
Definition back_to_brace (raw_content : str) (json_start : nat) : nat :=
  match last_brace (List.firstn (S json_start) raw_content) 0 None with
  | Some i => i
  | None => json_start
  end.

Definition start_marker (indent : nat) : str :=
  123%N :: 10%N :: List.repeat 32%N indent ++ key_marker "unified_products".

Definition find_json_start (raw_content : str) : option nat :=
  match str_find (start_marker 4) raw_content with
  | Some i => Some i
  | None =>
      match str_find (start_marker 2) raw_content with
      | Some i => Some i
      | None =>
          match str_find (key_marker "unified_products") raw_content with
          | Some i => Some (back_to_brace raw_content i)
          | None => None
          end
      end
  end.

(** The brace-counting loop; [i] is the index of the head of [s]. *)
Fixpoint scan_braces (s : str) (i : nat) (brace_count : Z) : option nat :=
  match s with
  | [] => None
  | c :: s' =>
      if char_eqb c 123%N then scan_braces s' (S i) (brace_count + 1)
      else if char_eqb c 125%N then
        if brace_count - 1 =? 0 then Some (S i)
        else scan_braces s' (S i) (brace_count - 1)
      else scan_braces s' (S i) brace_count
  end.

Definition find_json_end (raw_content : str) (json_start : nat)
  : option nat :=
  scan_braces (List.skipn json_start raw_content) json_start 0.

(** [s[i:j]]. *)
Definition slice (s : str) (i j : nat) : str :=
  List.firstn (j - i) (List.skipn i s).

(** The groups read from a raw answer that is a string. *)
Definition groups_of_text (rt : Runtime) (raw_content : str) : result value :=
  let manual :=
    gs <- _extract_products_manually raw_content ;; ret (VList gs) in
  match find_json_start raw_content with
  | Some json_start =>
      match find_json_end raw_content json_start with
      | Some json_end =>
          match json_loads rt (slice raw_content json_start json_end) with
          | Some (VDict data) =>
              let product_groups :=
                dict_get (lit "unified_products") (VList []) data in
              _ <- py_len product_groups ;;
              ret product_groups
          | Some _ => raise AttributeError
          | None => manual
          end
      | None => manual
      end
  | None => manual
  end.

(** ** The whole function *)

(** What is passed as [unified_products]: a task output with its [raw]
    attribute, or an object without that attribute. *)
Inductive py_object : Type :=
| TaskOutput (raw : value)
| Plain (v : value).

(** What the [try] block ends with: a sorted data frame to write, or one
    of its returns of the fallback file. *)
Inductive outcome : Type :=
| Report (df : list row)
| NoData.

(** The rows of the groups found, from [if not product_groups] on. *)
Definition build_report (rt : Runtime) (product_groups : value)
  : result outcome :=
  if negb (truthy product_groups) then ret NoData
  else
    _ <- py_len product_groups ;;
    groups <- iterate product_groups ;;
    rows <- process_groups rt groups [] ;;
    match rows with
    | [] => ret NoData
    | _ :: _ => ret (Report (sort_values rows))
    end.

(** The body of the [try] block.  The attribute [raw] is read before it
    is tested for, which raises on an object without it. *)
Definition process_body (rt : Runtime) (unified_products : py_object)
  : result outcome :=
  raw_content <- match unified_products with
                 | TaskOutput raw => ret raw
                 | Plain _ => raise AttributeError
                 end ;;
  match raw_content with
  | VStr text =>
      product_groups <- groups_of_text rt text ;;
      build_report rt product_groups
  | VDict d =>
      build_report rt (dict_get (lit "unified_products") (VList []) d)
  | _ => ret NoData
  end.

Definition write_report (df : list row) (fs : filesystem)
  : str * filesystem :=
  (main_csv_path,
   write_file main_csv_path
     {| summary_block := Some (summarize df); table := df |}
     (write_file main_csv_path {| summary_block := None; table := df |} fs)).

Definition finish (r : result outcome) (fs : filesystem) : str * filesystem :=
  match r with
  | inr (Report df) => write_report df fs
  | inr NoData => _create_fallback_csv fs
  | inl _ => _create_fallback_csv fs
  end.

Definition _process_csv_output (rt : Runtime) (unified_products : py_object)
    (fs : filesystem) : str * filesystem :=
  finish (process_body rt unified_products) fs.

(** The report built from a sequence of group records. *)
Definition report_of_groups (rt : Runtime) (product_groups : list value)
    (fs : filesystem) : str * filesystem :=
  finish (build_report rt (VList product_groups)) fs.

(* ================================================================== *)
(** * The flow: [collect_data], [analyze_products], [generate_csv],
      [run_flow] *)

Inductive status : Type := Success | Failed | Skipped.

(** The outcomes of the three tasks run by the agents, and the failure of
    the flow engine itself, if any (with its message). *)
Record collaborators : Type := {
  collection_task : result value;
  analysis_task : result py_object;
  csv_task : result unit;
  kickoff_failure : option str
}.

Record collected : Type := { raw_data : value; collect_status : status }.
Record analysed : Type := {
  unified_products : py_object;
  analysis_status : status
}.
Record generated : Type := { csv_path : option str; csv_status : status }.

Definition collect_data (w : collaborators) : collected :=
  match collection_task w with
  | inr r => {| raw_data := r; collect_status := Success |}
  | inl _ => {| raw_data := VList []; collect_status := Failed |}
  end.

Definition analyze_products (w : collaborators) (context : collected)
  : analysed :=
  match collect_status context with
  | Success =>
      match analysis_task w with
      | inr r => {| unified_products := r; analysis_status := Success |}
      | inl _ =>
          {| unified_products := Plain (VList []);
             analysis_status := Failed |}
      end
  | _ => {| unified_products := Plain (VList []); analysis_status := Skipped |}
  end.

Definition generate_csv (rt : Runtime) (w : collaborators)
    (context : analysed) (fs : filesystem) : generated * filesystem :=
  match analysis_status context with
  | Success =>
      match csv_task w with
      | inr _ =>
          let (path, fs') :=
            _process_csv_output rt (unified_products context) fs in
          ({| csv_path := Some path; csv_status := Success |}, fs')
      | inl _ => ({| csv_path := None; csv_status := Failed |}, fs)
      end
  | _ => ({| csv_path := None; csv_status := Skipped |}, fs)
  end.

(** [kickoff]: the three stages in turn, the result being that of the
    last one; a failure of the engine raises instead. *)
Definition kickoff (rt : Runtime) (w : collaborators) (fs : filesystem)
  : (str + generated) * filesystem :=
  match kickoff_failure w with
  | Some message => (inl message, fs)
  | None =>
      let (g, fs') :=
        generate_csv rt w (analyze_products w (collect_data w)) fs in
      (inr g, fs')
  end.

Definition error_row (message : str) : row := {|
  unified_name := lit "Flow execution failed";
  source_products := message;
  average_price := PyInt 0;
  price_variance := PyInt 0;
  confidence_level := PyInt 0;
  source_count := 0;
  sources := lit "Error";
  category := lit "Error";
  min_price := PyInt 0;
  max_price := PyInt 0
|}.

Definition run_flow (rt : Runtime) (w : collaborators) (fs : filesystem)
  : str * filesystem :=
  match kickoff rt w fs with
  | (inr result, fs') =>
      match csv_path result with
      | Some (c :: p) => (c :: p, fs')
      | _ => (fallback_csv_path, fs')
      end
  | (inl message, fs') =>
      (error_csv_path,
       write_file error_csv_path
         {| summary_block := None; table := [error_row message] |} fs')
  end.

(* ================================================================== *)
(** * Clusters as the specification describes them

    A cluster has a unified name, members that are either a bare name or
    a record with a name and possibly a price, a group average price, a
    confidence level and a list of sources.  [encode] gives the group
    record the program reads for such a cluster. *)

Inductive ProductRef : Type :=
| BareName (name : str)
| StructuredRef (name : str) (price : option float).

Record Cluster : Type := {
  unifiedName : str;
  clusterMembers : list ProductRef;
  groupAveragePrice : float;
  confidenceLevel : float;
  clusterSources : list str
}.

Definition encode_ref (r : ProductRef) : value :=
  match r with
  | BareName name => VStr name
  | StructuredRef name price =>
      VDict ((lit "name", VStr name)
             :: match price with
                | Some p => [(lit "price", VFloat p)]
                | None => []
                end)
  end.

Definition encode (c : Cluster) : list (str * value) :=
  [ (lit "unified_name", VStr (unifiedName c));
    (lit "products", VList (List.map encode_ref (clusterMembers c)));
    (lit "average_price", VFloat (groupAveragePrice c));
    (lit "confidence_level", VFloat (confidenceLevel c));
    (lit "sources", VList (List.map VStr (clusterSources c))) ].

(** The prices the members carry, in order. *)
Definition member_prices (c : Cluster) : list float :=
  List.flat_map
    (fun r => match r with
              | StructuredRef _ (Some p) => [p]
              | _ => []
              end)
    (clusterMembers c).

Definition member_name (r : ProductRef) : str :=
  match r with
  | BareName name => name
  | StructuredRef name _ => name
  end.

(* ================================================================== *)
(** * Ranks of floats

    A float that is not NaN has a rank, a triple of integers ordered
    lexicographically: the sign class, then the exponent, then the
    mantissa (both negated for negative numbers). *)

Definition frank (x : float) : Z * Z * Z :=
  match x with
  | S754_zero _ => (0, 0, 0)
  | S754_infinity false => (2, 0, 0)
  | S754_infinity true => (-2, 0, 0)
  | S754_nan => (0, 0, 0)
  | S754_finite false m e => (1, e, Zpos m)
  | S754_finite true m e => (-1, - e, Zneg m)
  end.

Definition rank_lt (a b : Z * Z * Z) : Prop :=
  let '(a1, a2, a3) := a in
  let '(b1, b2, b3) := b in
  a1 < b1 \/ (a1 = b1 /\ (a2 < b2 \/ (a2 = b2 /\ a3 < b3))).

(** Two rows with the same sort keys. *)
Definition same_keys (a b : row) : bool := row_before a b && row_before b a.

(** The order the report is meant to have, for rows with a confidence:
    higher confidence first, and for equal confidence the larger source
    count first. *)
Definition ranked_before (a b : row) : Prop :=
  let ca := num_float (confidence_level a) in
  let cb := num_float (confidence_level b) in
  flt cb ca = true \/ (feq ca cb = true /\ source_count b <= source_count a).

Definition has_confidence (r : row) : bool :=
  negb (is_nan (num_float (confidence_level r))).

Definition is_dict (v : value) : bool :=
  match v with VDict _ => true | _ => false end.

(* ================================================================== *)
(** * Sample inputs used in the examples *)

(** A runtime for closed examples: only its types matter there. *)
Definition sample_runtime : Runtime := {|
  py_repr := fun _ => lit "<object>";
  str_lower := List.map ascii_lower;
  json_loads := fun _ => None
|}.

Definition f_dec (m e : Z) : float := float_of_decimal false m e.

(** A cluster with [n] bare members called "m" and a given confidence. *)
Definition sample_cluster (name : string) (n : nat) (confidence : Z)
  : Cluster := {|
  unifiedName := lit name;
  clusterMembers := List.repeat (BareName (lit "m")) n;
  groupAveragePrice := f_dec 5 (-1);
  confidenceLevel := float_of_Z confidence;
  clusterSources := [lit "site"]
|}.

(** Clusters with confidence levels 90, 70, 70 and 1, 3, 1 members. *)
Definition sorting_example : list value :=
  [ VDict (encode (sample_cluster "a" 1 90));
    VDict (encode (sample_cluster "b" 3 70));
    VDict (encode (sample_cluster "c" 1 70)) ].

(** The same clusters in another order. *)
Definition sorting_example_shuffled : list value :=
  [ VDict (encode (sample_cluster "c" 1 70));
    VDict (encode (sample_cluster "b" 3 70));
    VDict (encode (sample_cluster "a" 1 90)) ].

(** The confidence, source count and name of every row of a file. *)
Definition keys_of (f : option csv_file) : list (float * Z * str) :=
  match f with
  | Some c =>
      List.map (fun r => (num_float (confidence_level r), source_count r,
                          unified_name r)) (table c)
  | None => []
  end.


(** A cluster whose two members carry the prices 0.6 and 0.4. *)
Definition price_pair_cluster : Cluster := {|
  unifiedName := lit "pair";
  clusterMembers := [ StructuredRef (lit "x") (Some (f_dec 6 (-1)));
                      StructuredRef (lit "y") (Some (f_dec 4 (-1))) ];
  groupAveragePrice := f_dec 9 (-1);
  confidenceLevel := float_of_Z 80;
  clusterSources := [lit "site"]
|}.



(** Two clusters with equal keys, to observe the order of ties. *)
Definition tie_example : list value :=
  [ VDict (encode (sample_cluster "first" 2 70));
    VDict (encode (sample_cluster "top" 1 95));
    VDict (encode (sample_cluster "second" 2 70)) ].

(** A group whose only member is a record with the price 65. *)
Definition out_of_range_member : list (str * value) :=
  [ (lit "name", VStr (lit "a")); (lit "price", VInt 65) ].

Definition out_of_range_group : list (str * value) :=
  [ (lit "unified_name", VStr (lit "x"));
    (lit "products", VList [VDict out_of_range_member]);
    (lit "average_price", VFloat (f_dec 5 (-1)));
    (lit "confidence_level", VInt 80);
    (lit "sources", VList [VStr (lit "site")]) ].

(** Three members, all from one source. *)
Definition single_source_cluster : Cluster := {|
  unifiedName := lit "x";
  clusterMembers := [ BareName (lit "a"); BareName (lit "b");
                      StructuredRef (lit "c") None ];
  groupAveragePrice := f_dec 5 (-1);
  confidenceLevel := float_of_Z 80;
  clusterSources := [lit "site"]
|}.


(** The raw answer a dictionary with the groups stands for. *)
Definition answer_of (groups : list value) : py_object :=
  TaskOutput (VDict [(lit "unified_products", VList groups)]).

(** A group whose confidence level is the text "high". *)
Definition vague_group : list (str * value) :=
  [ (lit "unified_name", VStr (lit "x"));
    (lit "products", VList [VStr (lit "a")]);
    (lit "average_price", VFloat (f_dec 5 (-1)));
    (lit "confidence_level", VStr (lit "high"));
    (lit "sources", VList [VStr (lit "site")]) ].

(** Two valid groups around the vague one. *)
Definition mixed_batch : list value :=
  [ VDict (encode (sample_cluster "a" 1 90));
    VDict vague_group;
    VDict (encode (sample_cluster "c" 1 70)) ].

(** A field of a raw answer: the key, a colon, a blank and the text of
    the value as written. *)
Definition field (name : string) (written : str) : str :=
  key_marker name ++ 32%N :: written.

Definition quoted (s : string) : str := quote :: lit s ++ [quote].

(** A raw answer without braces that names three groups, each with a
    price and a confidence. *)
Definition three_matches : str :=
  lit "Groups found: "
  ++ field "unified_name" (quoted "Election winner") ++ lit ", "
  ++ field "average_price" (lit "0.55") ++ lit ", "
  ++ field "confidence_level" (lit "85") ++ lit "; "
  ++ field "unified_name" (quoted "Bitcoin above 100k") ++ lit ", "
  ++ field "average_price" (lit "0.3") ++ lit ", "
  ++ field "confidence_level" (lit "72.5") ++ lit "; "
  ++ field "unified_name" (quoted "Nobel Peace Prize") ++ lit ", "
  ++ field "average_price" (lit "0.1") ++ lit ", "
  ++ field "confidence_level" (lit "60").

(** The same three groups, written as a sentence: the last price is
    followed by the full stop that ends it. *)
Definition price_with_full_stop : str :=
  lit "Groups found: "
  ++ field "unified_name" (quoted "Election winner") ++ lit ", "
  ++ field "confidence_level" (lit "85") ++ lit ", "
  ++ field "average_price" (lit "0.55") ++ lit "; "
  ++ field "unified_name" (quoted "Bitcoin above 100k") ++ lit ", "
  ++ field "confidence_level" (lit "72.5") ++ lit ", "
  ++ field "average_price" (lit "0.3") ++ lit "; "
  ++ field "unified_name" (quoted "Nobel Peace Prize") ++ lit ", "
  ++ field "confidence_level" (lit "60") ++ lit ", "
  ++ field "average_price" (lit "0.1.").

(** The group the fallback builds for a name, a price and a confidence. *)
Definition synthetic_group (name : string) (price confidence : float)
  : value :=
  VDict [ (lit "unified_name", VStr (lit name));
          (lit "products", VList [VStr (lit name)]);
          (lit "average_price", VFloat price);
          (lit "confidence_level", VFloat confidence);
          (lit "sources", VList [VStr (lit "extracted")]) ].

(** Collaborators whose tasks all succeed, the analysis giving [raw]. *)
Definition all_succeed (raw : value) : collaborators := {|
  collection_task := inr (VStr (lit "collected"));
  analysis_task := inr (TaskOutput raw);
  csv_task := inr tt;
  kickoff_failure := None
|}.

(** Collaborators whose collection task raises. *)
Definition collection_fails : collaborators := {|
  collection_task := inl TaskError;
  analysis_task := inr (TaskOutput (VDict []));
  csv_task := inr tt;
  kickoff_failure := None
|}.

(** Collaborators whose analysis task raises. *)
Definition analysis_fails : collaborators := {|
  collection_task := inr (VStr (lit "collected"));
  analysis_task := inl TaskError;
  csv_task := inr tt;
  kickoff_failure := None
|}.

(** Collaborators whose report task raises. *)
Definition csv_task_fails : collaborators := {|
  collection_task := inr (VStr (lit "collected"));
  analysis_task := inr (answer_of sorting_example);
  csv_task := inl TaskError;
  kickoff_failure := None
|}.

(** Whether a path names a file that has been written. *)
Definition exists_file (path : str) (fs : filesystem) : bool :=
  match read_file path fs with Some _ => true | None => false end.


(** The texts the number pattern matches, once in ASCII: digits, then
    possibly a full stop and digits. *)
Definition plain_number (ip fp : str) (dot : bool) : str :=
  ip ++ (if dot then 46%N :: fp else []).

(* ================================================================== *)
(** * The site scrapers (tools.py)

    [_scrape_polymarket], [_scrape_kalshi], [_scrape_predictit] and
    [_generic_scrape].  The browser is seen through its answers: the
    elements a query returns, or the message of the exception it raises;
    for each element, the texts of its title and price nodes, or the
    failure of one of the two lookups.  [json.dumps] is taken as given;
    the scrapers are described by the object they pass to it. *)

(** [s.strip()]. *)
Definition py_strip (s : str) : str :=
  List.rev (drop_while is_space (List.rev (drop_while is_space s))).

(** The title and price texts of an element, or a failed lookup. *)
Definition element : Type := result (str * str).

(** What [find_elements] answers: a message when it raises. *)
Definition query (A : Type) : Type := (str + list A)%type.

Definition market (name : str) (price : float) (category source : string)
  : value :=
  VDict [ (lit "name", VStr name);
          (lit "description", VStr name);
          (lit "price", VFloat price);
          (lit "probability", VFloat (fmul price (float_of_Z 100)));
          (lit "category", VStr (lit category));
          (lit "source", VStr (lit source)) ].

(** The loop over the elements: an element whose lookup fails is passed
    over; a market is kept when its name is not empty and its price is
    positive. *)
Fixpoint scrape_markets (category source : string) (elements : list element)
  : list value :=
  match elements with
  | [] => []
  | inl _ :: rest => scrape_markets category source rest
  | inr (name_text, price_text) :: rest =>
      let name := py_strip name_text in
      let price := _parse_price (py_strip price_text) in
      if truthy (VStr name) && flt (S754_zero false) price
      then market name price category source
           :: scrape_markets category source rest
      else scrape_markets category source rest
  end.

(** The object a site scraper serialises. *)
Definition site_payload (site category : string) (found : query element)
  : value :=
  match found with
  | inr elements =>
      VDict [ (lit "website_name", VStr (lit site));
              (lit "products",
               VList (scrape_markets category site
                        (List.firstn 10 elements))) ]
  | inl message =>
      VDict [ (lit "website_name", VStr (lit site));
              (lit "products", VList []);
              (lit "error", VStr message) ]
  end.

Definition polymarket_payload : query element -> value :=
  site_payload "Polymarket" "politics".
Definition kalshi_payload : query element -> value :=
  site_payload "Kalshi" "events".
Definition predictit_payload : query element -> value :=
  site_payload "PredictIt" "politics".

Definition _scrape_polymarket (json_dumps : value -> str)
    (found : query element) : str := json_dumps (polymarket_payload found).
Definition _scrape_kalshi (json_dumps : value -> str)
    (found : query element) : str := json_dumps (kalshi_payload found).
Definition _scrape_predictit (json_dumps : value -> str)
    (found : query element) : str := json_dumps (predictit_payload found).

(** [_generic_scrape]: the page title and the texts of the first five
    elements that are neither empty nor 200 characters or longer. *)
Definition generic_content (texts : list str) : list str :=
  List.filter
    (fun text => (0 <? List.length text)%nat && (List.length text <? 200)%nat)
    (List.map py_strip (List.firstn 5 texts)).

Definition generic_payload (title : str) (found : query str) : value :=
  match found with
  | inr texts =>
      VDict [ (lit "website_name", VStr (lit "Generic"));
              (lit "title", VStr title);
              (lit "content", VList (List.map VStr (generic_content texts)));
              (lit "products", VList []) ]
  | inl message =>
      VDict [ (lit "website_name", VStr (lit "Generic"));
              (lit "products", VList []);
              (lit "error", VStr message) ]
  end.

Definition _generic_scrape (json_dumps : value -> str) (title : str)
    (found : query str) : str := json_dumps (generic_payload title found).

(** The products of a payload. *)
Definition products_of (payload : value) : list value :=
  match payload with
  | VDict d =>
      match dict_lookup (lit "products") d with
      | Some (VList l) => l
      | _ => []
      end
  | _ => []
  end.

(** A product as the scrapers build it: a name that is not empty and has
    no white space around it, and a price between 0.01 and 0.99. *)
Definition valid_market (v : value) : Prop :=
  exists name price category source,
    v = market name price category source /\ name <> [] /\
    py_strip name = name /\
    fle f0_01 price = true /\ fle price f0_99 = true.

(** Whether the loop can keep an element: both lookups succeed and the
    stripped name is not empty. *)
Definition named (e : element) : bool :=
  match e with
  | inr (name_text, _) =>
      match py_strip name_text with [] => false | _ :: _ => true end
  | inl _ => false
  end.

(* ================================================================== *)
(** * Auxiliary notions for the properties *)

(** Number of occurrences of a character. *)
Definition count_char (c : char) (s : str) : nat :=
  List.length (List.filter (char_eqb c) s).

(** The prices collected, or the exception. *)
Definition prices_of (r : result (list value * list float))
  : result (list float) :=
  match r with
  | inr (_, prices) => inr prices
  | inl e => inl e
  end.

(** The keywords of the categories. *)
Definition all_keywords : list string :=
  [ "bitcoin"; "ethereum"; "solana"; "crypto"; "financial"; "market";
    "election"; "presidential"; "politics";
    "world cup"; "super bowl"; "world series"; "uefa"; "champions"; "f1";
    "nfl"; "sports"; "nobel" ]%string.

Definition categories : list str :=
  [ lit "Financial Markets"; lit "Politics"; lit "Sports"; lit "Awards";
    lit "Other" ].

(** A group built by the manual extraction for [name]: its name is its
    only member and its source is "extracted". *)
Definition synthetic_for (name : str) (g : value) : Prop :=
  exists price confidence,
    g = VDict [ (lit "unified_name", VStr name);
                (lit "products", VList [VStr name]);
                (lit "average_price", price);
                (lit "confidence_level", confidence);
                (lit "sources", VList [VStr (lit "extracted")]) ] /\
    (price = VInt 0 \/ exists f, price = VFloat f) /\
    (confidence = VInt 0 \/ exists f, confidence = VFloat f).

(** A member record with an integer price too large for a float. *)
Definition huge_price_member : list (str * value) :=
  [ (lit "name", VStr (lit "a")); (lit "price", VInt (10 ^ 400)) ].

Definition huge_price_group : list (str * value) :=
  [ (lit "unified_name", VStr (lit "x"));
    (lit "products", VList [VStr (lit "b"); VDict huge_price_member]);
    (lit "confidence_level", VInt 80) ].

(** A member record whose price is the text "n/a". *)
Definition unpriced_member : list (str * value) :=
  [ (lit "name", VStr (lit "a")); (lit "price", VStr (lit "n/a")) ].

(** Elements of a page: two markets, a failed lookup, a blank name. *)
Definition sample_elements : list element :=
  [ inr (lit "  Election winner ", lit "65%");
    inl TaskError;
    inr (lit "   ", lit "0.4");
    inr (lit "Bitcoin", lit "free") ].

(* ================================================================== *)
(** * Properties *)

(** ** Order of floats *)

Lemma flt_fle (a b : float) : flt a b = true -> fle a b = true.
Proof.
  unfold flt, fle, SFltb, SFleb.
  destruct (SFcompare a b) as [[]|]; congruence.
Qed.


(** ** The price parser *)

Lemma clamp_bounds (price : float) :
  fle f0_01 (py_max2 f0_01 (py_min2 f0_99 price)) = true /\
  fle (py_max2 f0_01 (py_min2 f0_99 price)) f0_99 = true.
Proof.
  unfold py_min2.
  destruct (flt price f0_99) eqn:Hhi.
  - unfold py_max2.
    destruct (flt f0_01 price) eqn:Hlo.
    + split; apply flt_fle; assumption.
    + split; vm_compute; reflexivity.
  - split; vm_compute; reflexivity.
Qed.

Lemma default_bounds : fle f0_01 f0_5 = true /\ fle f0_5 f0_99 = true.
Proof. split; vm_compute; reflexivity. Qed.

(** ** The body of the price parser never raises *)

Lemma span_spec (p : char -> bool) (s : str) :
  forall a b, span p s = (a, b) ->
    s = a ++ b /\ Forall (fun c => p c = true) a /\
    match b with [] => True | c :: _ => p c = false end.
Proof.
  induction s as [|c s IH]; simpl; intros a b H.
  - inversion H. repeat split. constructor.
  - destruct (p c) eqn:E.
    + destruct (span p s) as [a' b'] eqn:Es. inversion H; subst.
      destruct (IH a' b eq_refl) as [H1 [H2 H3]].
      repeat split; [simpl; f_equal; exact H1 | | exact H3].
      constructor; assumption.
    + inversion H; subst. repeat split; [constructor | exact E].
Qed.

Lemma span_app (p : char -> bool) (a b : str) :
  Forall (fun c => p c = true) a ->
  match b with [] => True | c :: _ => p c = false end ->
  span p (a ++ b) = (a, b).
Proof.
  intros Ha Hb. induction Ha as [|c a Hc Ha IH]; simpl.
  - destruct b as [|c b]; [reflexivity |]. simpl. rewrite Hb. reflexivity.
  - rewrite Hc, IH. reflexivity.
Qed.

Lemma findall_from_matches (m : matcher) (s : str) :
  forall skip g, In g (findall_from m s skip) ->
    exists s' n, m s' = Some (g, n).
Proof.
  induction s as [|c s IH]; simpl; intros skip g Hg; [contradiction |].
  destruct skip as [|k]; [| eapply IH; exact Hg].
  destruct (m (c :: s)) as [[g' n]|] eqn:E.
  - destruct Hg as [Hg|Hg]; [subst; eauto | eapply IH; exact Hg].
  - eapply IH; exact Hg.
Qed.

Lemma decimal_in_spec (blocks : list N) (c : char) (d : N) :
  decimal_in blocks c = Some d ->
  exists b, In b blocks /\ (b <= c < b + 10)%N /\ d = (c - b)%N.
Proof.
  induction blocks as [|b bs IH]; simpl; [discriminate |].
  destruct (N.leb b c && N.ltb c (b + 10))%N eqn:E.
  - intros H. inversion H. exists b.
    apply andb_true_iff in E. destruct E as [E1 E2].
    apply N.leb_le in E1. apply N.ltb_lt in E2.
    split; [left; reflexivity | split; [lia | reflexivity]].
  - intros H. destruct (IH H) as [b' [Hin Hb']].
    exists b'. split; [right; exact Hin | exact Hb'].
Qed.

Lemma decimal_ascii (c : char) (d : N) :
  decimal_value c = Some d -> (c < 127)%N -> is_ascii_digit c = true.
Proof.
  intros Hd Hc. apply decimal_in_spec in Hd.
  destruct Hd as [b [Hin [Hb _]]].
  assert (Hall : List.forallb (fun b => (b =? 48) || (127 <=? b))%N
                   decimal_blocks = true) by (vm_compute; reflexivity).
  rewrite forallb_forall in Hall. specialize (Hall b Hin).
  apply orb_true_iff in Hall. unfold is_ascii_digit.
  destruct Hall as [H|H].
  - apply N.eqb_eq in H. subst b. apply andb_true_iff.
    split; [apply N.leb_le | apply N.leb_le]; lia.
  - apply N.leb_le in H. lia.
Qed.

Lemma decimal_not_space (c : char) (d : N) :
  decimal_value c = Some d -> is_space c = false /\ (d < 10)%N.
Proof.
  intros Hd. apply decimal_in_spec in Hd.
  destruct Hd as [b [Hin [Hb Hd]]].
  split; [| lia].
  assert (Hall : List.forallb
                   (fun b => List.forallb
                               (fun i => negb (is_space (b + i)))
                               [0; 1; 2; 3; 4; 5; 6; 7; 8; 9])%N
                   decimal_blocks = true) by (vm_compute; reflexivity).
  rewrite forallb_forall in Hall. specialize (Hall b Hin).
  rewrite forallb_forall in Hall.
  assert (Hi : In (c - b)%N [0; 1; 2; 3; 4; 5; 6; 7; 8; 9]%N).
  { assert (H : (c - b = 0 \/ c - b = 1 \/ c - b = 2 \/ c - b = 3 \/
                 c - b = 4 \/ c - b = 5 \/ c - b = 6 \/ c - b = 7 \/
                 c - b = 8 \/ c - b = 9)%N) by lia.
    simpl. intuition. }
  specialize (Hall _ Hi). apply negb_true_iff in Hall.
  replace (b + (c - b))%N with c in Hall by lia. exact Hall.
Qed.

(** A run of decimal digits becomes a run of ASCII digits. *)
Lemma to_ascii_digits (ds : str) :
  Forall (fun c => is_decimal c = true) ds ->
  forall rest, exists ds',
    to_ascii (ds ++ rest) = ds' ++ to_ascii rest /\
    Forall (fun c => is_ascii_digit c = true) ds' /\
    List.length ds' = List.length ds.
Proof.
  intros Hds rest. induction Hds as [|c ds Hc Hds IH].
  - exists []. repeat split. constructor.
  - destruct IH as [ds' [H1 [H2 H3]]].
    unfold is_decimal in Hc.
    destruct (decimal_value c) as [d|] eqn:Hd; [| discriminate].
    simpl. destruct (c <? 127)%N eqn:E.
    + apply N.ltb_lt in E. exists (c :: ds'). rewrite H1.
      repeat split; [| simpl; rewrite H3; reflexivity].
      constructor; [eapply decimal_ascii; eassumption | exact H2].
    + destruct (decimal_not_space c d Hd) as [Hs Hlt].
      rewrite Hs, Hd. exists ((48 + d)%N :: ds'). rewrite H1.
      repeat split; [| simpl; rewrite H3; reflexivity].
      constructor; [| exact H2].
      unfold is_ascii_digit. apply andb_true_iff.
      split; apply N.leb_le; lia.
Qed.

Lemma digit_facts (c : char) :
  is_ascii_digit c = true ->
  is_ascii_space c = false /\ (c =? 95)%N = false /\
  c <> 45%N /\ c <> 43%N /\ c <> 46%N.
Proof.
  unfold is_ascii_digit, is_ascii_space. intros H.
  apply andb_true_iff in H. destruct H as [H1 H2].
  apply N.leb_le in H1. apply N.leb_le in H2.
  repeat split; try lia.
  - apply orb_false_iff. split.
    + apply andb_false_iff. right. apply N.leb_gt. lia.
    + apply N.eqb_neq. lia.
  - apply N.eqb_neq. lia.
Qed.

Lemma plain_number_chars (ip fp : str) (dot : bool) :
  Forall (fun c => is_ascii_digit c = true) ip ->
  Forall (fun c => is_ascii_digit c = true) fp ->
  Forall (fun c => is_ascii_space c = false /\ (c =? 95)%N = false)
    (plain_number ip fp dot).
Proof.
  intros Hi Hf. unfold plain_number. apply Forall_app. split.
  - eapply Forall_impl; [| exact Hi]. intros c Hc.
    destruct (digit_facts c Hc) as [H1 [H2 _]]. split; assumption.
  - destruct dot; [| constructor].
    constructor; [split; reflexivity |].
    eapply Forall_impl; [| exact Hf]. intros c Hc.
    destruct (digit_facts c Hc) as [H1 [H2 _]]. split; assumption.
Qed.

Lemma drop_while_keeps (p : char -> bool) (s : str) :
  Forall (fun c => p c = false) s -> drop_while p s = s.
Proof.
  intros H. destruct H as [|c s Hc Hs]; [reflexivity |].
  simpl. rewrite Hc. reflexivity.
Qed.

Lemma strip_ascii_keeps (s : str) :
  Forall (fun c => is_ascii_space c = false) s -> strip_ascii s = s.
Proof.
  intros H. unfold strip_ascii.
  rewrite (drop_while_keeps _ s H).
  rewrite drop_while_keeps; [apply rev_involutive |].
  apply Forall_rev. exact H.
Qed.

Lemma drop_underscores_keeps (s : str) :
  Forall (fun c => (c =? 95)%N = false) s ->
  forall prev, (prev =? 95)%N = false -> drop_underscores prev s = Some s.
Proof.
  intros H. induction H as [|c s Hc Hs IH]; intros prev Hp; simpl.
  - rewrite Hp. reflexivity.
  - rewrite Hc, Hp. simpl. rewrite (IH c Hc). reflexivity.
Qed.

Lemma parse_decimal_plain (ip fp : str) (dot : bool) :
  ip <> [] ->
  Forall (fun c => is_ascii_digit c = true) ip ->
  Forall (fun c => is_ascii_digit c = true) fp ->
  exists f, parse_decimal (plain_number ip fp dot) = Some f.
Proof.
  intros Hne Hi Hf. unfold parse_decimal, plain_number.
  destruct ip as [|c ip]; [contradiction |].
  assert (Hc : is_ascii_digit c = true) by (inversion Hi; assumption).
  destruct (digit_facts c Hc) as [_ [_ [Hm [Hp _]]]].
  assert (Hsign : forall t, parse_sign (c :: t) = (false, c :: t)).
  { intros t. unfold parse_sign.
    destruct c as [|q]; [reflexivity |].
    repeat (destruct q as [q|q|]; try reflexivity).
    - exfalso. apply Hp. reflexivity.
    - exfalso. apply Hm. reflexivity. }
  change ((c :: ip) ++ (if dot then 46%N :: fp else []))
    with (c :: (ip ++ (if dot then 46%N :: fp else []))).
  rewrite Hsign. cbv beta iota.
  change (c :: (ip ++ (if dot then 46%N :: fp else [])))
    with ((c :: ip) ++ (if dot then 46%N :: fp else [])).
  assert (Hs : span is_ascii_digit
                 ((c :: ip) ++ (if dot then 46%N :: fp else []))
               = (c :: ip, if dot then 46%N :: fp else [])).
  { apply span_app; [exact Hi | destruct dot; reflexivity]. }
  rewrite Hs.
  assert (Hs' : span is_ascii_digit fp = (fp, [])).
  { rewrite <- (app_nil_r fp) at 1. apply span_app; [exact Hf | exact I]. }
  destruct dot.
  - rewrite Hs'. simpl. eexists. reflexivity.
  - simpl. eexists. reflexivity.
Qed.

Lemma number_pattern_shape (s w : str) (n : nat) :
  number_pattern s = Some (w, n) ->
  exists (ip fp : str) (dot : bool),
    w = ip ++ (if dot then 46%N :: fp else []) /\ ip <> [] /\
    Forall (fun c => is_decimal c = true) ip /\
    Forall (fun c => is_decimal c = true) fp.
Proof.
  unfold number_pattern.
  destruct (span is_decimal s) as [ip r] eqn:E.
  destruct (span_spec _ _ _ _ E) as [_ [Hip _]].
  destruct ip as [|c ip]; [discriminate |].
  intros H. inversion H; subst. clear H.
  destruct r as [|x r].
  - exists (c :: ip), [], false. rewrite app_nil_r.
    repeat split; [discriminate | exact Hip | constructor].
  - destruct x as [|q].
    + exists (c :: ip), [], false. rewrite app_nil_r.
      repeat split; [discriminate | exact Hip | constructor].
    + destruct (Pos.eq_dec q 46) as [Hq|Hq].
      * subst q. destruct (span is_decimal r) as [fp r'] eqn:Er.
        destruct (span_spec _ _ _ _ Er) as [_ [Hfp _]].
        exists (c :: ip), fp, true.
        repeat split; [discriminate | exact Hip | exact Hfp].
      * exists (c :: ip), [], false.
        repeat split; [| discriminate | exact Hip | constructor].
        rewrite app_nil_r.
        repeat (destruct q as [q|q|]; try reflexivity).
        exfalso. apply Hq. reflexivity.
Qed.

(** Every match of the number pattern reads as a float. *)
Lemma number_match_is_float (s w : str) (n : nat) :
  number_pattern s = Some (w, n) -> exists f, float_of_str w = Some f.
Proof.
  intros H. apply number_pattern_shape in H.
  destruct H as [ip [fp [dot [Hw [Hne [Hip Hfp]]]]]]. subst w.
  assert (Hasc : exists ip' fp',
            to_ascii (ip ++ (if dot then 46%N :: fp else []))
              = plain_number ip' fp' dot /\ ip' <> [] /\
            Forall (fun c => is_ascii_digit c = true) ip' /\
            Forall (fun c => is_ascii_digit c = true) fp').
  { destruct (to_ascii_digits ip Hip (if dot then 46%N :: fp else []))
      as [ip' [H1 [H2 H3]]].
    destruct (to_ascii_digits fp Hfp []) as [fp' [G1 [G2 _]]].
    rewrite app_nil_r in G1. simpl in G1. rewrite app_nil_r in G1.
    exists ip', fp'. rewrite H1. unfold plain_number.
    repeat split; [| | exact H2 | exact G2].
    - destruct dot; [| reflexivity]. simpl. rewrite G1. reflexivity.
    - destruct ip' as [|c' ip'']; [| discriminate].
      destruct ip; [contradiction | discriminate]. }
  destruct Hasc as [ip' [fp' [Ha [Hne' [Hi' Hf']]]]].
  unfold float_of_str. rewrite Ha.
  pose proof (plain_number_chars ip' fp' dot Hi' Hf') as Hch.
  rewrite strip_ascii_keeps
    by (eapply Forall_impl; [| exact Hch]; intros c [Hc _]; exact Hc).
  rewrite (drop_underscores_keeps (plain_number ip' fp' dot));
    [| eapply Forall_impl; [| exact Hch]; intros c [_ Hc]; exact Hc
     | reflexivity].
  destruct (parse_decimal_plain ip' fp' dot Hne' Hi' Hf') as [f Hf].
  rewrite Hf. eexists. reflexivity.
Qed.

(** The [try] block of the parser always ends with a value: its
    [except] branch is never taken for a string. *)
Lemma parse_price_body_returns (price_text : str) :
  exists price, parse_price_body price_text = inr price.
Proof.
  unfold parse_price_body.
  destruct (price_matches price_text) as [|m0 rest] eqn:E;
    [eexists; reflexivity |].
  assert (Hin : In m0 (price_matches price_text))
    by (rewrite E; left; reflexivity).
  unfold price_matches, findall in Hin.
  apply findall_from_matches in Hin. destruct Hin as [s' [n Hm]].
  destruct (number_match_is_float _ _ _ Hm) as [f Hf].
  rewrite Hf. cbn [bind ret]. eexists. reflexivity.
Qed.

(** C1.  For every input string, [_parse_price] returns a value (it is a
    total function: no exception leaves it) that lies in the closed
    interval from 0.01 to 0.99; when the number pattern has no match, and
    when the body of the [try] block raises, the value is the default
    0.5. *)
Theorem parse_price_in_range (price_text : str) :
  fle f0_01 (_parse_price price_text) = true /\
  fle (_parse_price price_text) f0_99 = true /\
  (price_matches price_text = [] -> _parse_price price_text = f0_5) /\
  (forall e, parse_price_body price_text = inl e ->
             _parse_price price_text = f0_5).
Proof.
  unfold _parse_price, parse_price_body.
  destruct (price_matches price_text) as [|m0 rest].
  - simpl. repeat split; try (vm_compute; reflexivity).
  - destruct (float_of_str m0) as [price|]; simpl.
    + destruct (clamp_bounds
                  (if str_contains (lit "%") price_text
                      || flt (float_of_Z 1) price
                   then fdiv price (float_of_Z 100) else price)) as [Hlo Hhi].
      repeat split; try assumption; discriminate.
    + repeat split; try (vm_compute; reflexivity); discriminate.
Qed.

(** C7.  The parser maps "$0.65", "65%" and "65" followed by the cent
    sign to 0.65, and "invalid" to 0.5. *)
Theorem parse_price_examples :
  _parse_price (lit "$0.65") = f0_65 /\
  _parse_price (lit "65%") = f0_65 /\
  _parse_price (lit "65" ++ [0xA2%N]) = f0_65 /\
  _parse_price (lit "65" ++ [0xA2%N]) = _parse_price (lit "65%") /\
  _parse_price (lit "invalid") = f0_5.
Proof. repeat split; vm_compute; reflexivity. Qed.

(** The same with the mis-encoded cent sign of the test file, and the
    plain decimal of the test file. *)
Example parse_price_test_file :
  _parse_price (lit "65" ++ cent_literal) = f0_65 /\
  _parse_price (lit "0.45") = float_of_decimal false 45 (-2).
Proof. split; vm_compute; reflexivity. Qed.

(** The empty string and plain text give the default; the sign of a
    negative number is not read, and a number above 1 is a percentage. *)
Example parse_price_edge_cases :
  _parse_price [] = f0_5 /\
  _parse_price (lit "no price") = f0_5 /\
  _parse_price (lit "-5") = float_of_decimal false 5 (-2) /\
  _parse_price (lit "-0.001") = f0_01 /\
  _parse_price (lit "250") = f0_99.
Proof. repeat split; vm_compute; reflexivity. Qed.

(** ** The order of floats through their ranks *)

Lemma compare_rank (x y : float) :
  is_nan x = false -> is_nan y = false ->
  (flt x y = true <-> rank_lt (frank x) (frank y)) /\
  (feq x y = true <-> frank x = frank y).
Proof.
  unfold flt, feq, SFltb, SFeqb, rank_lt.
  destruct x as [sx|sx| |sx mx ex], y as [sy|sy| |sy my ey];
    simpl; try discriminate; intros _ _;
    try (destruct sx); try (destruct sy); simpl;
    try (split; split; intros H; try discriminate; try reflexivity;
         try lia; try (inversion H; lia); fail).
  all: change (PosDef.Pos.compare_cont Eq mx my) with (Pos.compare mx my);
    destruct (Z.compare_spec ex ey) as [He|He|He];
    destruct (Pos.compare_spec mx my) as [Hm|Hm|Hm]; simpl;
    (split; split; intros H; try discriminate; try reflexivity; try lia;
     try (inversion H; lia); try (subst; reflexivity)).
Qed.

Lemma flt_rank (x y : float) :
  is_nan x = false -> is_nan y = false ->
  flt x y = true <-> rank_lt (frank x) (frank y).
Proof. intros Hx Hy. apply (compare_rank x y Hx Hy). Qed.

Lemma flt_nan_l (y : float) : flt S754_nan y = false.
Proof. reflexivity. Qed.

Lemma flt_nan_r (x : float) : flt x S754_nan = false.
Proof. destruct x; reflexivity. Qed.

Lemma flt_trans (x y z : float) :
  flt x y = true -> flt y z = true -> flt x z = true.
Proof.
  intros Hxy Hyz.
  assert (Hx : is_nan x = false) by (destruct x; try reflexivity; discriminate).
  assert (Hy : is_nan y = false) by (destruct y; try reflexivity; discriminate).
  assert (Hz : is_nan z = false).
  { destruct z; try reflexivity. rewrite flt_nan_r in Hyz. discriminate. }
  apply flt_rank in Hxy; try assumption.
  apply flt_rank in Hyz; try assumption.
  apply flt_rank; try assumption.
  unfold rank_lt in *.
  destruct (frank x) as [[x1 x2] x3], (frank y) as [[y1 y2] y3],
           (frank z) as [[z1 z2] z3].
  lia.
Qed.

(** Among floats that are not NaN, not being smaller is being at least as
    large. *)
Lemma flt_false_fle (x y : float) :
  is_nan x = false -> is_nan y = false ->
  flt x y = false -> fle y x = true.
Proof.
  unfold flt, fle, SFltb, SFleb.
  destruct x as [sx|sx| |sx mx ex], y as [sy|sy| |sy my ey];
    simpl; try discriminate; intros _ _;
    try (destruct sx); try (destruct sy); simpl; try congruence.
  all: change (PosDef.Pos.compare_cont Eq mx my) with (Pos.compare mx my);
    change (PosDef.Pos.compare_cont Eq my mx) with (Pos.compare my mx);
    rewrite (Z.compare_antisym ex ey), (Pos.compare_antisym mx my);
    destruct (ex ?= ey); destruct (mx ?= my)%positive; simpl; congruence.
Qed.

Lemma fle_rank (x y : float) :
  is_nan x = false -> is_nan y = false ->
  fle x y = true <-> ~ rank_lt (frank y) (frank x).
Proof.
  intros Hx Hy. split.
  - intros Hle Hlt. apply flt_rank in Hlt; try assumption.
    revert Hle Hlt. unfold flt, fle, SFltb, SFleb.
    destruct x as [sx|sx| |sx mx ex], y as [sy|sy| |sy my ey];
      simpl; try discriminate;
      try (destruct sx); try (destruct sy); simpl; try congruence.
    all: change (PosDef.Pos.compare_cont Eq mx my) with (Pos.compare mx my);
      change (PosDef.Pos.compare_cont Eq my mx) with (Pos.compare my mx);
      rewrite (Z.compare_antisym ex ey), (Pos.compare_antisym mx my);
      destruct (ex ?= ey); destruct (mx ?= my)%positive; simpl; congruence.
  - intros Hn. apply flt_false_fle; try assumption.
    destruct (flt y x) eqn:E; try reflexivity.
    apply flt_rank in E; try assumption. contradiction.
Qed.

(** ** The sort order of rows *)

Lemma rank_trichotomy (r1 r2 : Z * Z * Z) :
  ~ rank_lt r1 r2 -> ~ rank_lt r2 r1 -> r1 = r2.
Proof.
  destruct r1 as [[a1 a2] a3], r2 as [[b1 b2] b3]. unfold rank_lt.
  intros H1 H2.
  assert (a1 = b1) by lia. assert (a2 = b2) by lia. assert (a3 = b3) by lia.
  congruence.
Qed.

Lemma rank_lt_irrefl (r : Z * Z * Z) : ~ rank_lt r r.
Proof. destruct r as [[a1 a2] a3]. unfold rank_lt. lia. Qed.

Lemma row_before_spec (a b : row) :
  let ca := num_float (confidence_level a) in
  let cb := num_float (confidence_level b) in
  row_before a b = true <->
  (is_nan cb = true /\
   (is_nan ca = false \/ source_count b <= source_count a)) \/
  (is_nan cb = false /\ is_nan ca = false /\
   (rank_lt (frank cb) (frank ca) \/
    (frank ca = frank cb /\ source_count b <= source_count a))).
Proof.
  intros ca cb. unfold row_before. fold ca cb.
  destruct (is_nan cb) eqn:Hb.
  - destruct (is_nan ca) eqn:Ha.
    + rewrite Z.leb_le. split.
      * intros H. left. split; [reflexivity | right; exact H].
      * intros [[_ [H|H]]|[H _]]; try discriminate. exact H.
    + split; [intros _ | reflexivity].
      left. split; [reflexivity | left; reflexivity].
  - destruct (is_nan ca) eqn:Ha.
    + split; [discriminate |].
      intros [[H _]|[_ [H _]]]; discriminate.
    + destruct (flt cb ca) eqn:Hlt.
      * split; [intros _ | reflexivity].
        right. repeat split. left. apply flt_rank; assumption.
      * assert (Hn1 : ~ rank_lt (frank cb) (frank ca)).
        { intros H. apply flt_rank in H; try assumption. congruence. }
        destruct (flt ca cb) eqn:Hgt.
        -- split; [discriminate |].
           apply flt_rank in Hgt; try assumption.
           intros [[H _]|[_ [_ [H|[H _]]]]]; try discriminate.
           ++ contradiction.
           ++ rewrite H in Hgt. exfalso. exact (rank_lt_irrefl _ Hgt).
        -- assert (Hn2 : ~ rank_lt (frank ca) (frank cb)).
           { intros H. apply flt_rank in H; try assumption. congruence. }
           rewrite Z.leb_le. split.
           ++ intros H. right. repeat split. right. split; [| exact H].
              apply rank_trichotomy; assumption.
           ++ intros [[H _]|[_ [_ [H|[_ H]]]]]; try discriminate.
              ** contradiction.
              ** exact H.
Qed.

Lemma row_before_total (a b : row) :
  row_before a b = true \/ row_before b a = true.
Proof.
  unfold row_before.
  destruct (is_nan (num_float (confidence_level a))),
           (is_nan (num_float (confidence_level b))); auto.
  - rewrite !Z.leb_le. lia.
  - destruct (flt (num_float (confidence_level b))
                  (num_float (confidence_level a))); auto.
    destruct (flt (num_float (confidence_level a))
                  (num_float (confidence_level b))); auto.
    rewrite !Z.leb_le. lia.
Qed.

Lemma row_before_trans (a b c : row) :
  row_before a b = true -> row_before b c = true -> row_before a c = true.
Proof.
  intros Hab Hbc.
  apply row_before_spec in Hab. apply row_before_spec in Hbc.
  apply row_before_spec. cbv zeta in *.
  destruct (frank (num_float (confidence_level a))) as [[a1 a2] a3] eqn:Ea,
           (frank (num_float (confidence_level b))) as [[b1 b2] b3] eqn:Eb,
           (frank (num_float (confidence_level c))) as [[c1 c2] c3] eqn:Ec.
  unfold rank_lt in *.
  destruct (is_nan (num_float (confidence_level a))),
           (is_nan (num_float (confidence_level b))),
           (is_nan (num_float (confidence_level c)));
    intuition (try discriminate; try congruence).
  all: try (left; split; [reflexivity | right; lia]).
  all: try (right; repeat split;
            match goal with
            | H : (_, _, _) = (_, _, _) |- _ => inversion H; subst; clear H
            | _ => idtac
            end;
            repeat match goal with
            | H : (_, _, _) = (_, _, _) |- _ => inversion H; subst; clear H
            end;
            first [ left; lia | right; split; [congruence | lia] ]).
Qed.

(** ** Sorting: permutation, order, stability *)

Lemma insert_row_perm (r : row) (l : list row) :
  Permutation (r :: l) (insert_row r l).
Proof.
  induction l as [|x l IH]; simpl.
  - apply Permutation_refl.
  - destruct (row_before r x).
    + apply Permutation_refl.
    + eapply perm_trans; [apply perm_swap |].
      apply perm_skip. exact IH.
Qed.

Lemma sort_values_perm (rows : list row) :
  Permutation rows (sort_values rows).
Proof.
  induction rows as [|r rows IH]; simpl.
  - apply perm_nil.
  - eapply perm_trans; [| apply insert_row_perm].
    apply perm_skip. exact IH.
Qed.

Lemma insert_row_sorted (r : row) (l : list row) :
  StronglySorted (fun a b => row_before a b = true) l ->
  StronglySorted (fun a b => row_before a b = true) (insert_row r l).
Proof.
  induction l as [|x l IH]; simpl; intros Hs.
  - constructor; [constructor | constructor].
  - inversion Hs as [|x' l' Hl Hx]; subst.
    destruct (row_before r x) eqn:E.
    + constructor; [exact Hs |].
      constructor; [exact E |].
      rewrite Forall_forall in *. intros y Hy.
      eapply row_before_trans; [exact E | apply Hx; exact Hy].
    + constructor; [apply IH; exact Hl |].
      assert (Hxr : row_before x r = true).
      { destruct (row_before_total r x) as [H|H]; [congruence | exact H]. }
      rewrite Forall_forall in *. intros y Hy.
      apply (Permutation_in _ (Permutation_sym (insert_row_perm r l))) in Hy.
      destruct Hy as [Hy|Hy]; [subst; exact Hxr | apply Hx; exact Hy].
Qed.

Lemma sort_values_sorted (rows : list row) :
  StronglySorted (fun a b => row_before a b = true) (sort_values rows).
Proof.
  induction rows as [|r rows IH]; simpl.
  - constructor.
  - apply insert_row_sorted. exact IH.
Qed.

Lemma same_keys_clash (x r y : row) :
  same_keys x r = true -> same_keys x y = true -> row_before r y = true.
Proof.
  unfold same_keys. rewrite !andb_true_iff. intros [_ Hrx] [Hxy _].
  eapply row_before_trans; eassumption.
Qed.

Lemma insert_row_filter (x r : row) (l : list row) :
  List.filter (same_keys x) (insert_row r l) =
  List.filter (same_keys x) (r :: l).
Proof.
  induction l as [|y l IH]; [reflexivity |].
  simpl insert_row. destruct (row_before r y) eqn:E; [reflexivity |].
  simpl. simpl in IH. rewrite IH.
  destruct (same_keys x r) eqn:Hr; [| reflexivity].
  destruct (same_keys x y) eqn:Hy; [| reflexivity].
  rewrite (same_keys_clash x r y Hr Hy) in E. discriminate.
Qed.

Lemma sort_values_stable (x : row) (rows : list row) :
  List.filter (same_keys x) (sort_values rows) =
  List.filter (same_keys x) rows.
Proof.
  induction rows as [|r rows IH]; [reflexivity |].
  simpl sort_values. rewrite insert_row_filter. simpl. rewrite IH.
  reflexivity.
Qed.

(** For rows that have a confidence, [row_before] is the order of the
    report: higher confidence first, then larger source count. *)
Lemma row_before_ranked (a b : row) :
  has_confidence a = true -> has_confidence b = true ->
  row_before a b = true <-> ranked_before a b.
Proof.
  unfold has_confidence, ranked_before. rewrite !negb_true_iff.
  intros Ha Hb. rewrite row_before_spec. cbv zeta.
  rewrite Ha, Hb.
  destruct (compare_rank (num_float (confidence_level b))
              (num_float (confidence_level a)) Hb Ha) as [Hlt _].
  destruct (compare_rank (num_float (confidence_level a))
              (num_float (confidence_level b)) Ha Hb) as [_ Heq].
  rewrite Hlt, Heq. split.
  - intros [[H _]|[_ [_ H]]]; [discriminate | exact H].
  - intros H. right. repeat split. exact H.
Qed.

Lemma sorted_ranked (l : list row) :
  List.forallb has_confidence l = true ->
  StronglySorted (fun a b => row_before a b = true) l ->
  StronglySorted ranked_before l.
Proof.
  intros Hc Hs. induction Hs as [|a l Hs IH Ha]; [constructor |].
  simpl in Hc. apply andb_true_iff in Hc. destruct Hc as [Hca Hcl].
  constructor; [apply IH; exact Hcl |].
  rewrite Forall_forall in *. rewrite forallb_forall in Hcl.
  intros y Hy. apply row_before_ranked; auto.
Qed.

(** ** Groups that encode a cluster *)

Section EncodedClusters.

Variable rt : Runtime.
Variable c : Cluster.

Lemma encode_products :
  dict_get (lit "products") (VList []) (encode c) =
  VList (List.map encode_ref (clusterMembers c)).
Proof. reflexivity. Qed.

Lemma encode_average_price :
  dict_get (lit "average_price") (VInt 0) (encode c) =
  VFloat (groupAveragePrice c).
Proof. reflexivity. Qed.

Lemma encode_unified_name :
  dict_get (lit "unified_name") (VStr (lit "Unknown")) (encode c) =
  VStr (unifiedName c).
Proof. reflexivity. Qed.

Lemma encode_confidence_level :
  dict_get (lit "confidence_level") (VInt 0) (encode c) =
  VFloat (confidenceLevel c).
Proof. reflexivity. Qed.

Lemma encode_sources :
  dict_get (lit "sources") (VList []) (encode c) =
  VList (List.map VStr (clusterSources c)).
Proof. reflexivity. Qed.

End EncodedClusters.

Lemma collect_members_encode (rt : Runtime) (ms : list ProductRef) :
  forall names prices,
    collect_members rt (List.map encode_ref ms) names prices =
    inr (names ++ List.map (fun r => VStr (member_name r)) ms,
         prices ++ List.flat_map
                     (fun r => match r with
                               | StructuredRef _ (Some p) => [p]
                               | _ => []
                               end) ms).
Proof.
  induction ms as [|m ms IH]; intros names prices.
  - simpl. rewrite !app_nil_r. reflexivity.
  - destruct m as [name|name [p|]].
    + simpl. rewrite IH, <- app_assoc. reflexivity.
    + change (List.map encode_ref (StructuredRef name (Some p) :: ms))
        with (encode_ref (StructuredRef name (Some p))
              :: List.map encode_ref ms).
      cbn [collect_members encode_ref].
      change (dict_lookup (lit "price")
                ((lit "name", VStr name) :: [(lit "price", VFloat p)]))
        with (Some (VFloat p)).
      change (dict_get (lit "name")
                (VStr (py_str rt
                   (VDict ((lit "name", VStr name)
                           :: [(lit "price", VFloat p)]))))
                ((lit "name", VStr name) :: [(lit "price", VFloat p)]))
        with (VStr name).
      cbn [py_float ret]. rewrite IH, <- !app_assoc. reflexivity.
    + change (List.map encode_ref (StructuredRef name None :: ms))
        with (encode_ref (StructuredRef name None)
              :: List.map encode_ref ms).
      cbn [collect_members encode_ref].
      change (dict_lookup (lit "price") ((lit "name", VStr name) :: []))
        with (@None value).
      change (dict_get (lit "name")
                (VStr (py_str rt (VDict ((lit "name", VStr name) :: []))))
                ((lit "name", VStr name) :: []))
        with (VStr name).
      cbn iota. rewrite IH, <- app_assoc. reflexivity.
Qed.

Lemma members_encode (rt : Runtime) (c : Cluster) :
  members rt (VList (List.map encode_ref (clusterMembers c))) =
  inr (List.map (fun r => VStr (member_name r)) (clusterMembers c),
       member_prices c).
Proof.
  unfold members, member_prices.
  destruct (clusterMembers c) as [|m ms] eqn:E; [reflexivity |].
  change (truthy (VList (List.map encode_ref (m :: ms)))) with true.
  cbn [iterate bind ret]. rewrite collect_members_encode. reflexivity.
Qed.

Lemma all_strs_names (l : list str) :
  all_strs (List.map VStr l) = inr l.
Proof.
  induction l as [|s l IH]; [reflexivity |].
  simpl. rewrite IH. reflexivity.
Qed.

Lemma py_str_names (rt : Runtime) (l : list str) :
  List.map (py_str rt) (List.map VStr l) = l.
Proof.
  induction l as [|s l IH]; [reflexivity |].
  simpl. rewrite IH. reflexivity.
Qed.

(** The row of a group that encodes a cluster, given its statistics. *)
Lemma process_group_encode (rt : Runtime) (c : Cluster) :
  process_group rt (encode c) =
  bind (compute_stats (member_prices c) (encode c)) (fun st =>
    inr {| unified_name := unifiedName c;
           source_products :=
             join_strs (lit "; ") (List.map member_name (clusterMembers c));
           average_price := py_round (Stats.avg_price st) 4;
           price_variance := py_round (Stats.price_variance st) 4;
           confidence_level :=
             PyFloat (py_round_float (confidenceLevel c) 2);
           source_count := Z.of_nat (List.length (clusterMembers c));
           sources := join_strs (lit "; ") (clusterSources c);
           category := categorize (str_lower rt (unifiedName c));
           min_price := py_round (Stats.min_price st) 4;
           max_price := py_round (Stats.max_price st) 4 |}).
Proof.
  unfold process_group.
  rewrite encode_products, encode_unified_name, encode_confidence_level,
    encode_sources, members_encode.
  cbn [bind].
  destruct (compute_stats (member_prices c) (encode c)) as [e|st];
    [reflexivity |].
  cbn [bind]. unfold py_join.
  rewrite <- (List.map_map member_name VStr), all_strs_names.
  cbn [bind ret py_float py_len iterate py_str].
  rewrite List.length_map, py_str_names. reflexivity.
Qed.

(** ** Extremes *)




(** ** Statistics of a cluster *)

(** The statistics of a group that encodes a cluster are always
    computed. *)
Lemma compute_stats_encode (c : Cluster) :
  exists st, compute_stats (member_prices c) (encode c) = inr st.
Proof.
  unfold compute_stats.
  destruct (member_prices c) as [|p ps].
  - rewrite encode_average_price. cbn [py_gt_zero bind ret].
    destruct (flt (S754_zero false) (groupAveragePrice c));
      cbn [py_float bind ret]; eexists; reflexivity.
  - eexists. reflexivity.
Qed.


(** C8.  The source count of a row is the number of member entries of the
    group: for every cluster the row is produced with that count, bare
    names included; this holds of any group record whose products are a
    list, whenever a row is produced; and three members from a single
    source give the count 3. *)
Theorem source_count_is_member_count (rt : Runtime) :
  (forall c : Cluster,
     exists r, process_group rt (encode c) = inr r /\
       source_count r = Z.of_nat (List.length (clusterMembers c))) /\
  (forall g l r,
     dict_lookup (lit "products") g = Some (VList l) ->
     process_group rt g = inr r ->
     source_count r = Z.of_nat (List.length l)) /\
  (exists r, process_group rt (encode single_source_cluster) = inr r /\
     clusterSources single_source_cluster = [lit "site"] /\
     source_count r = 3).
Proof.
  split; [| split].
  - intros c. rewrite process_group_encode.
    destruct (compute_stats_encode c) as [st Hst]. rewrite Hst.
    eexists. split; reflexivity.
  - intros g l r Hl Hr. unfold process_group, dict_get in Hr.
    rewrite Hl in Hr.
    destruct (members rt (VList l)) as [e|[names prices]];
      [discriminate |].
    cbn [bind] in Hr.
    destruct (compute_stats prices g) as [e|st]; [discriminate |].
    cbn [bind] in Hr.
    destruct (py_join (lit "; ") names) as [e|joined]; [discriminate |].
    cbn [bind] in Hr.
    destruct (py_float _) as [e|confidence]; [discriminate |].
    cbn [bind py_len ret] in Hr.
    destruct (iterate _) as [e|srcs]; [discriminate |].
    cbn [bind ret] in Hr. inversion Hr. reflexivity.
  - rewrite process_group_encode.
    eexists. split; [vm_compute; reflexivity |].
    split; reflexivity.
Qed.

(** C10.  Member prices are not clamped: a group whose only member is a
    record with the price 65, a value above 0.99, gets the average,
    minimum and maximum price 65. *)
Theorem member_prices_not_clamped (rt : Runtime) :
  dict_lookup (lit "products") out_of_range_group =
    Some (VList [VDict out_of_range_member]) /\
  dict_lookup (lit "price") out_of_range_member = Some (VInt 65) /\
  fle (float_of_Z 65) f0_99 = false /\
  flt f0_99 (float_of_Z 65) = true /\
  exists r, process_group rt out_of_range_group = inr r /\
    average_price r = PyFloat (float_of_Z 65) /\
    min_price r = PyFloat (float_of_Z 65) /\
    max_price r = PyFloat (float_of_Z 65).
Proof.
  repeat split; try (vm_compute; reflexivity).
  eexists. split; [vm_compute; reflexivity |].
  repeat split; vm_compute; reflexivity.
Qed.

(** ** The sorted report *)

Lemma process_groups_nil_rows (rt : Runtime) (rows : list row) :
  process_groups rt [] [] = inr rows -> rows = [].
Proof. simpl. intros H. inversion H. reflexivity. Qed.

Lemma report_of_rows (rt : Runtime) (groups : list value) (rows : list row)
    (fs : filesystem) :
  process_groups rt groups [] = inr rows -> rows <> [] ->
  report_of_groups rt groups fs = write_report (sort_values rows) fs.
Proof.
  intros Hp Hne. unfold report_of_groups, build_report.
  destruct groups as [|g groups].
  - apply process_groups_nil_rows in Hp. contradiction.
  - cbn [truthy negb py_len iterate bind ret]. rewrite Hp. cbn [bind].
    destruct rows as [|r rows]; [contradiction | reflexivity].
Qed.

Lemma has_confidence_perm (l l' : list row) :
  Permutation l l' ->
  List.forallb has_confidence l = true ->
  List.forallb has_confidence l' = true.
Proof.
  intros Hp. rewrite !forallb_forall. intros H x Hx.
  apply H. eapply Permutation_in; [apply Permutation_sym; exact Hp | exact Hx].
Qed.

(** C4.  The rows written are the rows produced, rearranged; they are in
    the order of [row_before], which for rows with a confidence is:
    higher confidence first, then larger source count; rows with equal
    keys keep their order.  Clusters with confidences 90, 70, 70 and
    source counts 1, 3, 1 come out as 90/1, 70/3, 70/1, also when given
    in another order. *)
Theorem report_is_sorted (rt : Runtime) (groups : list value)
    (rows : list row) (fs : filesystem) :
  Permutation rows (sort_values rows) /\
  StronglySorted (fun a b => row_before a b = true) (sort_values rows) /\
  (List.forallb has_confidence rows = true ->
   StronglySorted ranked_before (sort_values rows)) /\
  (forall x, List.filter (same_keys x) (sort_values rows) =
             List.filter (same_keys x) rows) /\
  (process_groups rt groups [] = inr rows -> rows <> [] ->
   report_of_groups rt groups fs = write_report (sort_values rows) fs) /\
  keys_of (read_file main_csv_path
             (snd (report_of_groups rt sorting_example [])))
    = [ (float_of_Z 90, 1, lit "a"); (float_of_Z 70, 3, lit "b");
        (float_of_Z 70, 1, lit "c") ] /\
  keys_of (read_file main_csv_path
             (snd (report_of_groups rt sorting_example_shuffled [])))
    = [ (float_of_Z 90, 1, lit "a"); (float_of_Z 70, 3, lit "b");
        (float_of_Z 70, 1, lit "c") ] /\
  keys_of (read_file main_csv_path (snd (report_of_groups rt tie_example [])))
    = [ (float_of_Z 95, 1, lit "top"); (float_of_Z 70, 2, lit "first");
        (float_of_Z 70, 2, lit "second") ].
Proof.
  split; [apply sort_values_perm |].
  split; [apply sort_values_sorted |].
  split.
  { intros Hc. apply sorted_ranked; [| apply sort_values_sorted].
    exact (has_confidence_perm _ _ (sort_values_perm rows) Hc). }
  split; [intros x; apply sort_values_stable |].
  split; [apply report_of_rows |].
  repeat split; vm_compute; reflexivity.
Qed.

(** ** The fallback report *)

Lemma process_groups_discarded (rt : Runtime) (groups : list value) :
  List.forallb (fun g => negb (is_dict g)) groups = true ->
  forall rows, process_groups rt groups rows = inr rows.
Proof.
  induction groups as [|g groups IH]; intros Hd rows; [reflexivity |].
  simpl in Hd. apply andb_true_iff in Hd. destruct Hd as [Hg Hd].
  destruct g; try discriminate; simpl; apply IH; exact Hd.
Qed.

Lemma process_csv_output_answer (rt : Runtime) (groups : list value)
    (fs : filesystem) :
  _process_csv_output rt (answer_of groups) fs =
  report_of_groups rt groups fs.
Proof. reflexivity. Qed.

(** An object without the attribute [raw] always gives the fallback
    file: the attribute is read before its presence is tested. *)
Lemma process_csv_output_plain (rt : Runtime) (v : value) (fs : filesystem) :
  _process_csv_output rt (Plain v) fs = _create_fallback_csv fs.
Proof. reflexivity. Qed.

(** A raw text in which the JSON object is found and decoded is treated
    as the groups it holds. *)
Lemma process_csv_output_text (rt : Runtime) (text : str)
    (json_start json_end : nat) (data : list (str * value))
    (groups : list value) (fs : filesystem) :
  find_json_start text = Some json_start ->
  find_json_end text json_start = Some json_end ->
  json_loads rt (slice text json_start json_end) = Some (VDict data) ->
  dict_lookup (lit "unified_products") data = Some (VList groups) ->
  _process_csv_output rt (TaskOutput (VStr text)) fs =
  report_of_groups rt groups fs.
Proof.
  intros Hs He Hj Hd.
  unfold _process_csv_output, report_of_groups, process_body, groups_of_text.
  cbn [bind ret]. rewrite Hs, He, Hj. unfold dict_get. rewrite Hd.
  reflexivity.
Qed.

(** C2.  When the sequence of group records is empty, or every record is
    discarded (none is a dictionary), building the report does not fail
    and writes a file: the fallback file, whose table is exactly one row,
    with the category "Error" and 0 in the six numeric fields. *)
Theorem empty_report_is_fallback (rt : Runtime) (groups : list value)
    (fs : filesystem) :
  List.forallb (fun g => negb (is_dict g)) groups = true ->
  _process_csv_output rt (answer_of groups) fs = _create_fallback_csv fs /\
  _process_csv_output rt (Plain (VList [])) fs = _create_fallback_csv fs /\
  fst (_process_csv_output rt (answer_of groups) fs) = fallback_csv_path /\
  read_file fallback_csv_path
    (snd (_process_csv_output rt (answer_of groups) fs))
    = Some {| summary_block := None; table := [fallback_row] |} /\
  category fallback_row = lit "Error" /\
  average_price fallback_row = PyInt 0 /\
  price_variance fallback_row = PyInt 0 /\
  confidence_level fallback_row = PyInt 0 /\
  source_count fallback_row = 0 /\
  min_price fallback_row = PyInt 0 /\
  max_price fallback_row = PyInt 0.
Proof.
  intros Hd.
  assert (H : _process_csv_output rt (answer_of groups) fs
              = _create_fallback_csv fs).
  { rewrite process_csv_output_answer.
    unfold report_of_groups, build_report.
    destruct groups as [|g groups]; [reflexivity |].
    cbn [truthy negb py_len iterate bind ret].
    rewrite (process_groups_discarded rt _ Hd). reflexivity. }
  rewrite H. repeat split.
Qed.

Lemma empty_report_witness :
  _process_csv_output sample_runtime (answer_of []) []
    = _create_fallback_csv [] /\
  read_file fallback_csv_path
    (snd (_process_csv_output sample_runtime (answer_of []) []))
    = Some {| summary_block := None; table := [fallback_row] |}.
Proof.
  destruct (empty_report_is_fallback sample_runtime [] [] eq_refl)
    as [H1 [_ [_ [H3 _]]]].
  split; [exact H1 | exact H3].
Defined.

(** ** A confidence that is not a number *)

Lemma process_group_bad_confidence (rt : Runtime)
    (g : list (str * value)) (v : value) (e : exn) :
  dict_lookup (lit "confidence_level") g = Some v ->
  py_float v = inl e ->
  exists e', process_group rt g = inl e'.
Proof.
  intros Hv He. unfold process_group.
  destruct (members rt _) as [e1|[names prices]]; [eexists; reflexivity |].
  cbn [bind].
  destruct (compute_stats prices g) as [e2|st]; [eexists; reflexivity |].
  cbn [bind].
  destruct (py_join (lit "; ") names) as [e3|joined];
    [eexists; reflexivity |].
  cbn [bind]. unfold dict_get at 1. rewrite Hv, He.
  eexists. reflexivity.
Qed.

Lemma process_groups_raises (rt : Runtime) (g : list (str * value))
    (e : exn) (groups : list value) :
  In (VDict g) groups -> process_group rt g = inl e ->
  forall rows, exists e', process_groups rt groups rows = inl e'.
Proof.
  intros Hin Hg.
  induction groups as [|x groups IH]; [contradiction |].
  intros rows. destruct Hin as [Hx|Hin].
  - subst x. simpl. rewrite Hg. eexists. reflexivity.
  - destruct x; simpl; try (apply IH; exact Hin).
    destruct (process_group rt d) as [e1|r]; [eexists; reflexivity |].
    cbn [bind]. apply IH. exact Hin.
Qed.

(** C9.  If one group record carries a confidence level that [float]
    rejects, the whole report is the fallback file with its single row:
    the other groups of the batch are not reported.  The text "high" is
    such a value. *)
Theorem bad_confidence_collapses (rt : Runtime) (groups : list value)
    (g : list (str * value)) (v : value) (e : exn) (fs : filesystem) :
  In (VDict g) groups ->
  dict_lookup (lit "confidence_level") g = Some v ->
  py_float v = inl e ->
  _process_csv_output rt (answer_of groups) fs = _create_fallback_csv fs /\
  read_file fallback_csv_path
    (snd (_process_csv_output rt (answer_of groups) fs))
    = Some {| summary_block := None; table := [fallback_row] |} /\
  read_file main_csv_path (snd (_process_csv_output rt (answer_of groups) fs))
    = read_file main_csv_path fs /\
  py_float (VStr (lit "high")) = inl ValueError.
Proof.
  intros Hin Hv He.
  assert (H : _process_csv_output rt (answer_of groups) fs
              = _create_fallback_csv fs).
  { rewrite process_csv_output_answer.
    unfold report_of_groups, build_report.
    destruct groups as [|x groups]; [contradiction |].
    cbn [truthy negb py_len iterate bind ret].
    destruct (process_group_bad_confidence rt g v e Hv He) as [e1 Hg].
    destruct (process_groups_raises rt g e1 _ Hin Hg []) as [e2 Hp].
    rewrite Hp. reflexivity. }
  rewrite H. repeat split.
Qed.

Lemma bad_confidence_witness :
  _process_csv_output sample_runtime (answer_of mixed_batch) []
    = _create_fallback_csv [] /\
  read_file fallback_csv_path
    (snd (_process_csv_output sample_runtime (answer_of mixed_batch) []))
    = Some {| summary_block := None; table := [fallback_row] |}.
Proof.
  destruct (bad_confidence_collapses sample_runtime mixed_batch vague_group
              (VStr (lit "high")) ValueError [])
    as [H1 [H2 _]].
  - right. left. reflexivity.
  - reflexivity.
  - vm_compute. reflexivity.
  - split; [exact H1 | exact H2].
Defined.

(** ** Manual extraction *)

(** With three names, prices and confidences that read as numbers, the
    manual extraction returns three groups, each with its name as single
    member and the source "extracted". *)
Example extraction_three_groups :
  find_json_start three_matches = None /\
  _extract_products_manually three_matches =
    inr [ synthetic_group "Election winner" (f_dec 55 (-2)) (float_of_Z 85);
          synthetic_group "Bitcoin above 100k" (f_dec 3 (-1))
            (f_dec 725 (-1));
          synthetic_group "Nobel Peace Prize" (f_dec 1 (-1))
            (float_of_Z 60) ].
Proof. split; vm_compute; reflexivity. Qed.

(** A missing trailing price or confidence is the integer 0. *)
Example extraction_missing_fields :
  _extract_products_manually
    (field "unified_name" (quoted "Election winner"))
  = inr [ VDict [ (lit "unified_name", VStr (lit "Election winner"));
                  (lit "products", VList [VStr (lit "Election winner")]);
                  (lit "average_price", VInt 0);
                  (lit "confidence_level", VInt 0);
                  (lit "sources", VList [VStr (lit "extracted")]) ] ].
Proof. vm_compute. reflexivity. Qed.

(** When every price and confidence found reads as a number, there is one
    group per name. *)
Lemma build_groups_total (names prices confidences : list str) :
  (forall x, In x prices -> float_of_str x <> None) ->
  (forall x, In x confidences -> float_of_str x <> None) ->
  forall i, exists gs,
    build_groups names prices confidences i = inr gs /\
    List.length gs = List.length names.
Proof.
  intros Hp Hc.
  assert (Hat : forall xs, (forall x, In x xs -> float_of_str x <> None) ->
                forall i, exists v, float_at xs i = inr v).
  { intros xs Hxs i. unfold float_at.
    destruct (nth_error xs i) as [x|] eqn:E; [| eexists; reflexivity].
    apply nth_error_In in E. apply Hxs in E. cbn [py_float].
    destruct (float_of_str x); [eexists; reflexivity | contradiction]. }
  induction names as [|name names IH]; intros i.
  - exists []. split; reflexivity.
  - destruct (Hat prices Hp i) as [p Hpi].
    destruct (Hat confidences Hc i) as [c Hci].
    destruct (IH (S i)) as [gs [Hgs Hlen]].
    cbn [build_groups]. rewrite Hpi, Hci. cbn [bind]. rewrite Hgs.
    cbn [bind ret]. eexists. split; [reflexivity |].
    simpl. rewrite Hlen. reflexivity.
Qed.

(** C5, at the failing input.  The answer has no braces and three names,
    prices and confidences; the price pattern takes the full stop after
    the last price into the match, [float] rejects "0.1." and the manual
    extraction raises [ValueError] instead of returning three groups; the
    report is then the fallback file. *)
Theorem extraction_raises_on_trailing_full_stop (rt : Runtime) :
  find_json_start price_with_full_stop = None /\
  findall name_pattern price_with_full_stop =
    [lit "Election winner"; lit "Bitcoin above 100k";
     lit "Nobel Peace Prize"] /\
  findall price_pattern price_with_full_stop =
    [lit "0.55"; lit "0.3"; lit "0.1."] /\
  findall confidence_pattern price_with_full_stop =
    [lit "85"; lit "72.5"; lit "60"] /\
  float_of_str (lit "0.1.") = None /\
  _extract_products_manually price_with_full_stop = inl ValueError /\
  _process_csv_output rt (TaskOutput (VStr price_with_full_stop)) []
    = _create_fallback_csv [].
Proof. repeat split; vm_compute; reflexivity. Qed.

(** ** The flow *)

(** When every task succeeds, the path returned names a file that was
    written. *)
Lemma run_flow_success (rt : Runtime) (w : collaborators) (fs : filesystem)
    (out : py_object) (r : value) (u : unit) :
  kickoff_failure w = None ->
  collection_task w = inr r ->
  analysis_task w = inr out ->
  csv_task w = inr u ->
  run_flow rt w fs = _process_csv_output rt out fs /\
  exists_file (fst (run_flow rt w fs)) (snd (run_flow rt w fs)) = true.
Proof.
  intros Hk Hc Ha Ht.
  assert (H : run_flow rt w fs = _process_csv_output rt out fs).
  { unfold run_flow, kickoff, generate_csv, analyze_products, collect_data.
    rewrite Hk, Hc. cbn [collect_status]. rewrite Ha.
    cbn [analysis_status unified_products]. rewrite Ht.
    destruct (_process_csv_output rt out fs) as [path fs'] eqn:E.
    cbn [csv_path].
    unfold _process_csv_output, finish in E.
    destruct (process_body rt out) as [e|[df|]]; inversion E; reflexivity. }
  split; [exact H |]. rewrite H.
  unfold _process_csv_output, finish.
  destruct (process_body rt out) as [e|[df|]]; reflexivity.
Qed.

(** When the flow engine itself fails, the error file is written. *)
Lemma run_flow_engine_failure (rt : Runtime) (w : collaborators)
    (fs : filesystem) (message : str) :
  kickoff_failure w = Some message ->
  fst (run_flow rt w fs) = error_csv_path /\
  exists_file error_csv_path (snd (run_flow rt w fs)) = true.
Proof.
  intros Hk. unfold run_flow, kickoff. rewrite Hk. split; reflexivity.
Qed.

(** C6, at the failing inputs.  When the collection task, the analysis
    task or the report task raises, the later stages are skipped and
    [run_flow] returns the name of the fallback file although no file has
    been written: starting from an empty file system, it is still
    empty. *)
Theorem run_flow_returns_unwritten_path (rt : Runtime) :
  run_flow rt collection_fails [] = (fallback_csv_path, []) /\
  run_flow rt analysis_fails [] = (fallback_csv_path, []) /\
  run_flow rt csv_task_fails [] = (fallback_csv_path, []) /\
  exists_file fallback_csv_path [] = false /\
  csv_path (fst (generate_csv rt collection_fails
                   (analyze_products collection_fails
                      (collect_data collection_fails)) [])) = None.
Proof. repeat split. Qed.

(* ================================================================== *)
(** * Further properties of the price parser and of the scrapers *)

Lemma parse_price_bounds (price_text : str) :
  fle f0_01 (_parse_price price_text) = true /\
  fle (_parse_price price_text) f0_99 = true.
Proof.
  unfold _parse_price, parse_price_body.
  destruct (price_matches price_text) as [|m0 rest];
    [exact default_bounds |].
  destruct (float_of_str m0) as [price|]; simpl;
    [apply clamp_bounds | exact default_bounds].
Qed.

Lemma fle_not_nan (x y : float) :
  fle x y = true -> is_nan x = false /\ is_nan y = false.
Proof.
  unfold fle, SFleb. destruct x, y; simpl; try discriminate; auto.
Qed.

Lemma above_cent_is_positive (x : float) :
  fle f0_01 x = true -> flt (S754_zero false) x = true.
Proof.
  intros H. destruct (fle_not_nan _ _ H) as [_ Hx].
  apply fle_rank in H; [| reflexivity | exact Hx].
  apply flt_rank; [reflexivity | exact Hx |].
  change (frank f0_01) with (1, -59, 5764607523034235) in H.
  change (frank (S754_zero false)) with (0, 0, 0).
  destruct (frank x) as [[x1 x2] x3]. unfold rank_lt in *. lia.
Qed.

Lemma parse_price_positive (price_text : str) :
  flt (S754_zero false) (_parse_price price_text) = true.
Proof.
  apply above_cent_is_positive. apply parse_price_bounds.
Qed.

(** ** Stripping *)

Lemma drop_while_suffix (p : char -> bool) (s : str) :
  exists pre, s = pre ++ drop_while p s /\
    Forall (fun c => p c = true) pre.
Proof.
  induction s as [|c s [pre [IH Hpre]]]; simpl.
  - exists []. split; [reflexivity | constructor].
  - destruct (p c) eqn:E.
    + exists (c :: pre). split; [simpl; f_equal; exact IH |].
      constructor; assumption.
    + exists []. split; [reflexivity | constructor].
Qed.

Lemma drop_while_head (p : char -> bool) (s : str) :
  match drop_while p s with [] => True | c :: _ => p c = false end.
Proof.
  induction s as [|c s IH]; simpl; [exact I |].
  destruct (p c) eqn:E; [exact IH | exact E].
Qed.

Lemma drop_while_fixed (p : char -> bool) (s : str) :
  match s with [] => True | c :: _ => p c = false end ->
  drop_while p s = s.
Proof.
  destruct s as [|c s]; [reflexivity |]. simpl. intros H. rewrite H.
  reflexivity.
Qed.

(** Stripping a stripped text changes nothing. *)
Lemma py_strip_idempotent (s : str) : py_strip (py_strip s) = py_strip s.
Proof.
  unfold py_strip.
  set (t := drop_while is_space s).
  set (u := drop_while is_space (List.rev t)).
  assert (Hu : match u with [] => True | c :: _ => is_space c = false end)
    by apply drop_while_head.
  assert (Ht : match t with [] => True | c :: _ => is_space c = false end)
    by apply drop_while_head.
  destruct (drop_while_suffix is_space (List.rev t)) as [pre [Hpre _]].
  fold u in Hpre.
  assert (Hrev : match List.rev u with
                 | [] => True
                 | c :: _ => is_space c = false
                 end).
  { assert (Htu : t = List.rev u ++ List.rev pre).
    { rewrite <- rev_app_distr, <- Hpre, rev_involutive. reflexivity. }
    destruct (List.rev u) as [|c ru]; [exact I |].
    rewrite Htu in Ht. exact Ht. }
  rewrite (drop_while_fixed is_space (List.rev u) Hrev).
  rewrite rev_involutive.
  rewrite (drop_while_fixed is_space u Hu). reflexivity.
Qed.

(** ** The markets of a site *)

Lemma scrape_markets_valid (category source : string)
    (elements : list element) :
  Forall valid_market (scrape_markets category source elements) /\
  (List.length (scrape_markets category source elements)
   <= List.length elements)%nat.
Proof.
  induction elements as [|e elements [IH1 IH2]]; simpl.
  - split; [constructor | lia].
  - destruct e as [err|[name_text price_text]]; [split; [exact IH1 | lia] |].
    destruct (py_strip name_text) as [|c name] eqn:En; simpl;
      [split; [exact IH1 | lia] |].
    rewrite parse_price_positive. split; [| simpl; lia].
    constructor; [| exact IH1].
    exists (c :: name), (_parse_price (py_strip price_text)), category, source.
    destruct (parse_price_bounds (py_strip price_text)) as [Hlo Hhi].
    repeat split; try assumption; [discriminate |].
    rewrite <- En. apply py_strip_idempotent.
Qed.

(** X1.  Whatever the page holds, a site scraper reports at most ten
    products, and every product has a name that is not empty and carries
    no surrounding white space, and a price between 0.01 and 0.99; when
    the query for the elements raises, it reports no product. *)
Theorem scraped_products_are_valid (site category : string)
    (found : query element) :
  Forall valid_market (products_of (site_payload site category found)) /\
  (List.length (products_of (site_payload site category found)) <= 10)%nat /\
  (forall message, found = inl message ->
     products_of (site_payload site category found) = []).
Proof.
  destruct found as [message|elements].
  - repeat split; [constructor | simpl; lia].
  - change (products_of (site_payload site category (inr elements)))
      with (scrape_markets category site (List.firstn 10 elements)).
    destruct (scrape_markets_valid category site (List.firstn 10 elements))
      as [H1 H2].
    split; [exact H1 |]. split; [| discriminate].
    pose proof (List.firstn_le_length 10 elements). lia.
Qed.

Lemma scrape_markets_count (category source : string)
    (elements : list element) :
  List.length (scrape_markets category source elements) =
  List.length (List.filter named elements).
Proof.
  induction elements as [|e elements IH]; [reflexivity |].
  simpl. destruct e as [err|[name_text price_text]]; [exact IH |].
  simpl. destruct (py_strip name_text) as [|c name]; simpl; [exact IH |].
  rewrite parse_price_positive. simpl. rewrite IH. reflexivity.
Qed.

(** X2.  The test [price > 0] of the scrapers never rejects a market: the
    products are, in number, the elements among the first ten whose
    lookups succeed and whose name is not blank, whatever their price
    text is. *)
Theorem price_guard_never_rejects (site category : string)
    (elements : list element) :
  List.length (products_of (site_payload site category (inr elements))) =
  List.length (List.filter named (List.firstn 10 elements)) /\
  (forall price_text,
     flt (S754_zero false) (_parse_price price_text) = true).
Proof.
  split; [| apply parse_price_positive].
  change (products_of (site_payload site category (inr elements)))
    with (scrape_markets category site (List.firstn 10 elements)).
  apply scrape_markets_count.
Qed.

(** ** Characters before the number *)

Lemma replace_keeps_head (old : str) (c : char) (s : str) :
  starts_with old (c :: s) = false ->
  str_replace old [] (c :: s) = c :: str_replace old [] s.
Proof.
  unfold str_replace. intros H. simpl replace_from at 1.
  rewrite H. reflexivity.
Qed.

Lemma findall_skips_head (c : char) (s : str) :
  is_decimal c = false ->
  findall number_pattern (c :: s) = findall number_pattern s.
Proof.
  intros H. unfold findall. simpl findall_from at 1.
  unfold number_pattern at 1. simpl span. rewrite H. reflexivity.
Qed.

Lemma starts_with_other_head (d c : char) (old s : str) :
  d <> c -> starts_with (d :: old) (c :: s) = false.
Proof.
  intros H. cbn [starts_with]. unfold char_eqb.
  destruct (N.eqb_spec d c) as [E|E]; [contradiction | reflexivity].
Qed.

(** X3.  A leading character that is not a decimal digit, a percent sign
    or the first half of the mis-encoded cent sign does not change the
    parsed price; in particular a minus sign is not read, so a negative
    number parses as the positive one, and a dollar sign is dropped. *)
Theorem parse_price_ignores_leading (c : char) (price_text : str) :
  is_decimal c = false -> c <> 37%N -> c <> 0xC2%N ->
  _parse_price (c :: price_text) = _parse_price price_text.
Proof.
  intros Hd Hp Hc.
  assert (Hcent : forall t, starts_with cent_literal (c :: t) = false).
  { intros t. apply starts_with_other_head. congruence. }
  assert (Hpct : forall t, starts_with (lit "%") (c :: t) = false).
  { intros t. change (lit "%") with [37%N].
    apply starts_with_other_head. congruence. }
  assert (Hm : price_matches (c :: price_text) = price_matches price_text).
  { unfold price_matches.
    destruct (N.eq_dec c 36) as [Hdol|Hdol].
    - subst c. reflexivity.
    - assert (Hs : starts_with (lit "$") (c :: price_text) = false).
      { change (lit "$") with [36%N].
        apply starts_with_other_head. congruence. }
      rewrite (replace_keeps_head _ _ _ Hs).
      rewrite (replace_keeps_head _ _ _ (Hcent _)).
      rewrite (replace_keeps_head _ _ _ (Hpct _)).
      apply findall_skips_head. exact Hd. }
  unfold _parse_price, parse_price_body. rewrite Hm.
  replace (str_contains (lit "%") (c :: price_text))
    with (str_contains (lit "%") price_text); [reflexivity |].
  cbn [str_contains]. rewrite Hpct. reflexivity.
Qed.

Lemma parse_price_ignores_leading_witness :
  _parse_price (45%N :: lit "0.3") = _parse_price (lit "0.3").
Proof.
  apply (parse_price_ignores_leading 45%N (lit "0.3"));
    [reflexivity | discriminate | discriminate].
Defined.

(** ** Categories *)

Lemma char_eqb_refl (c : char) : char_eqb c c = true.
Proof. apply N.eqb_refl. Qed.

Lemma starts_with_app (sub rest : str) : starts_with sub (sub ++ rest) = true.
Proof.
  induction sub as [|c sub IH]; [reflexivity |].
  simpl. rewrite char_eqb_refl, IH. reflexivity.
Qed.

Lemma str_contains_middle (sub before after : str) :
  str_contains sub (before ++ sub ++ after) = true.
Proof.
  induction before as [|c before IH].
  - simpl app. destruct (sub ++ after) eqn:E.
    + simpl. rewrite <- E, starts_with_app. reflexivity.
    + simpl. rewrite <- E, starts_with_app. reflexivity.
  - simpl. rewrite IH. apply orb_true_r.
Qed.

Lemma any_keyword_found (keywords : list string) (k : string)
    (before after : str) :
  In k keywords ->
  any_keyword keywords (before ++ lit k ++ after) = true.
Proof.
  intros Hin. unfold any_keyword. apply existsb_exists.
  exists k. split; [exact Hin | apply str_contains_middle].
Qed.

(** X4.  The category is always one of the five category names, and a
    name whose lower-case text contains one of the eighteen keywords
    anywhere, also inside a longer word, is never classified as
    "Other". *)
Theorem keyword_anywhere_is_categorized (text : str) :
  In (categorize text) categories /\
  (forall k before after,
     In k all_keywords -> text = before ++ lit k ++ after ->
     categorize text <> lit "Other").
Proof.
  split.
  - unfold categorize, categories.
    repeat match goal with
           | |- context [if ?b then _ else _] => destruct b
           end; simpl; auto 6.
  - intros k before after Hin Ht. subst text.
    assert (Hany :
      any_keyword ["bitcoin"; "ethereum"; "solana"; "crypto"; "financial";
                   "market"]%string (before ++ lit k ++ after) = true \/
      any_keyword ["election"; "presidential"; "politics"]%string
        (before ++ lit k ++ after) = true \/
      any_keyword ["world cup"; "super bowl"; "world series"; "uefa";
                   "champions"; "f1"; "nfl"; "sports"]%string
        (before ++ lit k ++ after) = true \/
      str_contains (lit "nobel") (before ++ lit k ++ after) = true).
    { unfold all_keywords in Hin. simpl in Hin.
      repeat (destruct Hin as [Hin|Hin];
              [subst k;
               first [ left; apply any_keyword_found; simpl; tauto
                     | right; left; apply any_keyword_found; simpl; tauto
                     | right; right; left; apply any_keyword_found;
                       simpl; tauto
                     | right; right; right; apply str_contains_middle ] |]).
      contradiction. }
    unfold categorize.
    destruct (any_keyword _ _); [discriminate |].
    destruct (any_keyword _ _); [discriminate |].
    destruct (any_keyword _ _); [discriminate |].
    destruct (str_contains _ _); [discriminate |].
    destruct Hany as [H|[H|[H|H]]]; discriminate.
Qed.

(* ================================================================== *)
(** * Further properties of the members of a group *)

Lemma collect_members_lengths (rt : Runtime) (products : list value) :
  forall names prices names' prices',
    collect_members rt products names prices = inr (names', prices') ->
    List.length names' = (List.length names + List.length products)%nat /\
    (List.length prices <= List.length prices'
     <= List.length prices + List.length products)%nat.
Proof.
  induction products as [|product rest IH];
    intros names prices names' prices' H.
  - simpl in H. inversion H; subst. simpl. lia.
  - simpl in H.
    destruct product as [| b | z | f | s | l | d].
    1-6: apply IH in H; rewrite length_app in H; simpl in *; lia.
    destruct (dict_lookup (lit "price") d) as [pv|].
    + destruct (py_float pv) as [[]|price]; try discriminate;
        apply IH in H; rewrite ?length_app in H; simpl in *; lia.
    + apply IH in H. rewrite length_app in H. simpl in *. lia.
Qed.

(** X5.  When the members of a group are read, there is one name per
    entry of the products list, and at most as many prices: the names
    shown in a row are as many as its source count. *)
Theorem one_name_per_member (rt : Runtime) (products : list value)
    (names : list value) (prices : list float) :
  members rt (VList products) = inr (names, prices) ->
  List.length names = List.length products /\
  (List.length prices <= List.length products)%nat.
Proof.
  unfold members. destruct products as [|p rest].
  - simpl. intros H. inversion H. simpl. lia.
  - change (truthy (VList (p :: rest))) with true.
    cbn [iterate bind ret]. intros H.
    apply collect_members_lengths in H. simpl in H. simpl. lia.
Qed.

Lemma one_name_per_member_witness :
  List.length [VStr (lit "a"); VStr (lit "b")] = 2%nat /\
  (List.length [f_dec 5 (-1)] <= 2)%nat.
Proof.
  apply (one_name_per_member sample_runtime
           [VDict [(lit "name", VStr (lit "a"));
                   (lit "price", VFloat (f_dec 5 (-1)))];
            VStr (lit "b")]
           [VStr (lit "a"); VStr (lit "b")] [f_dec 5 (-1)]).
  reflexivity.
Defined.

(** The prices collected do not depend on the names collected so far. *)
Lemma collect_members_prices (rt : Runtime) (products : list value) :
  forall names names' prices,
    prices_of (collect_members rt products names prices) =
    prices_of (collect_members rt products names' prices).
Proof.
  induction products as [|product rest IH]; intros names names' prices;
    [reflexivity |].
  simpl. destruct product as [| b | z | f | s | l | d]; try apply IH.
  destruct (dict_lookup (lit "price") d) as [pv|]; [| apply IH].
  destruct (py_float pv) as [[]|price]; try reflexivity; apply IH.
Qed.

Lemma collect_members_skip (rt : Runtime) (bad : list (str * value))
    (v : value) (before after : list value) :
  dict_lookup (lit "price") bad = Some v ->
  py_float v = inl ValueError \/ py_float v = inl TypeError ->
  forall names names' prices,
    prices_of (collect_members rt (before ++ VDict bad :: after)
                 names prices) =
    prices_of (collect_members rt (before ++ after) names' prices).
Proof.
  intros Hv Hf.
  induction before as [|product before IH]; intros names names' prices.
  - simpl. rewrite Hv.
    destruct Hf as [Hf|Hf]; rewrite Hf; apply collect_members_prices.
  - simpl. destruct product as [| b | z | f | s | l | d]; try apply IH.
    destruct (dict_lookup (lit "price") d) as [pv|]; [| apply IH].
    destruct (py_float pv) as [[]|price]; try reflexivity; apply IH.
Qed.

(** X6.  A member record whose price [float] rejects with [ValueError]
    or [TypeError] (a text that is not a number, a missing value, a list)
    contributes no price: the prices of the group are those of the other
    members, as if the record were absent. *)
Theorem unreadable_price_is_skipped (rt : Runtime)
    (bad : list (str * value)) (v : value) (before after : list value) :
  dict_lookup (lit "price") bad = Some v ->
  py_float v = inl ValueError \/ py_float v = inl TypeError ->
  prices_of (members rt (VList (before ++ VDict bad :: after))) =
  prices_of (members rt (VList (before ++ after))).
Proof.
  intros Hv Hf. unfold members.
  assert (Ht : truthy (VList (before ++ VDict bad :: after)) = true)
    by (destruct before; reflexivity).
  rewrite Ht. cbn [iterate bind ret].
  rewrite (collect_members_skip rt bad v before after Hv Hf [] [] []).
  destruct (before ++ after) as [|p rest] eqn:E; [reflexivity |].
  change (truthy (VList (p :: rest))) with true.
  cbn [iterate bind ret]. reflexivity.
Qed.

Lemma unreadable_price_witness :
  prices_of (members sample_runtime
               (VList (List.map encode_ref
                         (clusterMembers price_pair_cluster)
                       ++ VDict unpriced_member :: []))) =
  prices_of (members sample_runtime
               (VList (List.map encode_ref
                         (clusterMembers price_pair_cluster) ++ []))).
Proof.
  apply (unreadable_price_is_skipped sample_runtime unpriced_member
           (VStr (lit "n/a"))).
  - reflexivity.
  - left. vm_compute. reflexivity.
Defined.

(** ** A price too large for a float *)

Lemma collect_members_overflow (rt : Runtime) (m : list (str * value))
    (z : Z) (products : list value) :
  In (VDict m) products ->
  dict_lookup (lit "price") m = Some (VInt z) ->
  is_inf (float_of_Z z) = true ->
  forall names prices,
    exists e, collect_members rt products names prices = inl e.
Proof.
  intros Hin Hp Hz.
  induction products as [|product rest IH]; [contradiction |].
  intros names prices. destruct Hin as [Hx|Hin].
  - subst product. simpl. rewrite Hp. cbn [py_float]. rewrite Hz.
    eexists. reflexivity.
  - simpl. destruct product as [| b | z' | f | s | l | d];
      try (apply IH; exact Hin).
    destruct (dict_lookup (lit "price") d) as [pv|];
      [| apply IH; exact Hin].
    destruct (py_float pv) as [[]|price];
      try (apply IH; exact Hin); eexists; reflexivity.
Qed.

(** X7.  A member price that is an integer too large for a float is not
    skipped like an unreadable price: [float] raises [OverflowError],
    which the loop over the members does not handle, and the whole
    report is the fallback file. *)
Theorem huge_price_collapses (rt : Runtime) (groups : list value)
    (g m : list (str * value)) (products : list value) (z : Z)
    (fs : filesystem) :
  In (VDict g) groups ->
  dict_lookup (lit "products") g = Some (VList products) ->
  In (VDict m) products ->
  dict_lookup (lit "price") m = Some (VInt z) ->
  is_inf (float_of_Z z) = true ->
  _process_csv_output rt (answer_of groups) fs = _create_fallback_csv fs.
Proof.
  intros Hg Hps Hm Hp Hz.
  assert (Hraise : exists e, process_group rt g = inl e).
  { unfold process_group, dict_get. rewrite Hps. unfold members.
    assert (Ht : truthy (VList products) = true)
      by (destruct products; [contradiction | reflexivity]).
    rewrite Ht. cbn [iterate bind ret].
    destruct (collect_members_overflow rt m z products Hm Hp Hz [] [])
      as [e He].
    rewrite He. eexists. reflexivity. }
  destruct Hraise as [e He].
  rewrite process_csv_output_answer.
  unfold report_of_groups, build_report.
  destruct groups as [|x groups]; [contradiction |].
  cbn [truthy negb py_len iterate bind ret].
  destruct (process_groups_raises rt g e _ Hg He []) as [e' Hp'].
  rewrite Hp'. reflexivity.
Qed.

Lemma huge_price_witness :
  _process_csv_output sample_runtime
    (answer_of [VDict (encode (sample_cluster "a" 1 90));
                VDict huge_price_group]) []
  = _create_fallback_csv [].
Proof.
  apply (huge_price_collapses sample_runtime _ huge_price_group
           huge_price_member
           [VStr (lit "b"); VDict huge_price_member] (10 ^ 400)).
  - right. left. reflexivity.
  - reflexivity.
  - right. left. reflexivity.
  - reflexivity.
  - vm_compute. reflexivity.
Defined.

(* ================================================================== *)
(** * Further properties of the manual extraction *)

Lemma float_at_shape (xs : list str) (i : nat) (v : value) :
  float_at xs i = inr v -> v = VInt 0 \/ exists f, v = VFloat f.
Proof.
  unfold float_at. destruct (nth_error xs i) as [x|].
  - destruct (py_float (VStr x)) as [e|f]; [discriminate |].
    cbn [bind ret]. intros H. inversion H. right. eexists. reflexivity.
  - intros H. inversion H. left. reflexivity.
Qed.

Lemma float_at_raises (xs : list str) (i : nat) (e : exn) :
  float_at xs i = inl e ->
  e = ValueError /\ exists x, In x xs /\ float_of_str x = None.
Proof.
  unfold float_at. destruct (nth_error xs i) as [x|] eqn:E; [| discriminate].
  cbn [py_float]. destruct (float_of_str x) eqn:F; [discriminate |].
  intros H. inversion H. split; [reflexivity |].
  exists x. split; [eapply nth_error_In; exact E | exact F].
Qed.

Lemma build_groups_shape (names prices confidences : list str) :
  forall i gs,
    build_groups names prices confidences i = inr gs ->
    Forall2 synthetic_for names gs.
Proof.
  induction names as [|name names IH]; intros i gs H.
  - simpl in H. inversion H. constructor.
  - cbn [build_groups] in H.
    destruct (float_at prices i) as [e|p] eqn:Ep; [discriminate |].
    destruct (float_at confidences i) as [e|c] eqn:Ec; [discriminate |].
    cbn [bind] in H.
    destruct (build_groups names prices confidences (S i)) as [e|gs'] eqn:Eg;
      [discriminate |].
    cbn [bind ret] in H. inversion H; subst. constructor.
    + exists p, c. split; [reflexivity |].
      split; eapply float_at_shape; eassumption.
    + eapply IH. exact Eg.
Qed.

(** X8.  Whenever the manual extraction returns, it returns one group per
    match of the name pattern, in the order of the matches; each group
    has the name as its unified name and as its only member, the source
    "extracted", and for price and confidence a float or the integer
    0. *)
Theorem extraction_one_group_per_name (raw_content : str)
    (gs : list value) :
  _extract_products_manually raw_content = inr gs ->
  Forall2 synthetic_for (findall name_pattern raw_content) gs /\
  List.length gs = List.length (findall name_pattern raw_content).
Proof.
  unfold _extract_products_manually. intros H.
  apply build_groups_shape in H. split; [exact H |].
  symmetry. eapply Forall2_length. exact H.
Qed.

Lemma extraction_one_group_witness :
  Forall2 synthetic_for (findall name_pattern three_matches)
    [ synthetic_group "Election winner" (f_dec 55 (-2)) (float_of_Z 85);
      synthetic_group "Bitcoin above 100k" (f_dec 3 (-1)) (f_dec 725 (-1));
      synthetic_group "Nobel Peace Prize" (f_dec 1 (-1)) (float_of_Z 60) ].
Proof.
  apply (extraction_one_group_per_name three_matches).
  vm_compute. reflexivity.
Defined.

Lemma build_groups_raises (names prices confidences : list str) :
  forall i e,
    build_groups names prices confidences i = inl e ->
    e = ValueError /\
    exists x, (In x prices \/ In x confidences) /\ float_of_str x = None.
Proof.
  induction names as [|name names IH]; intros i e H; [discriminate |].
  cbn [build_groups] in H.
  destruct (float_at prices i) as [e1|p] eqn:Ep.
  - cbn [bind] in H. inversion H; subst.
    destruct (float_at_raises _ _ _ Ep) as [He [x [Hx Hf]]].
    split; [exact He |]. exists x. split; [left; exact Hx | exact Hf].
  - cbn [bind] in H.
    destruct (float_at confidences i) as [e2|c] eqn:Ec.
    + cbn [bind] in H. inversion H; subst.
      destruct (float_at_raises _ _ _ Ec) as [He [x [Hx Hf]]].
      split; [exact He |]. exists x. split; [right; exact Hx | exact Hf].
    + cbn [bind] in H.
      destruct (build_groups names prices confidences (S i)) as [e3|gs] eqn:Eg;
        [| discriminate].
      cbn [bind] in H. inversion H; subst. eapply IH. exact Eg.
Qed.

(** X9.  The manual extraction raises only [ValueError], and only when
    the price pattern or the confidence pattern has matched a text that
    [float] rejects; when every match of the two patterns reads as a
    number it returns. *)
Theorem extraction_raises_only_on_bad_number (raw_content : str) :
  (forall e, _extract_products_manually raw_content = inl e ->
     e = ValueError /\
     exists x,
       (In x (findall price_pattern raw_content) \/
        In x (findall confidence_pattern raw_content)) /\
       float_of_str x = None) /\
  ((forall x, In x (findall price_pattern raw_content) ->
              float_of_str x <> None) ->
   (forall x, In x (findall confidence_pattern raw_content) ->
              float_of_str x <> None) ->
   exists gs, _extract_products_manually raw_content = inr gs).
Proof.
  split.
  - intros e H. unfold _extract_products_manually in H.
    eapply build_groups_raises. exact H.
  - intros Hp Hc. unfold _extract_products_manually.
    destruct (build_groups_total (findall name_pattern raw_content)
                _ _ Hp Hc 0%nat) as [gs [Hgs _]].
    exists gs. exact Hgs.
Qed.

(** ** From extracted groups to rows *)

Lemma process_group_synthetic (rt : Runtime) (name : str)
    (d : list (str * value)) :
  synthetic_for name (VDict d) ->
  exists r, process_group rt d = inr r /\
    unified_name r = name /\ source_products r = name /\
    source_count r = 1 /\ sources r = lit "extracted".
Proof.
  intros [price [confidence [Hd [Hp Hc]]]]. inversion Hd; subst d. clear Hd.
  unfold process_group.
  change (dict_get (lit "products") (VList []) _) with (VList [VStr name]).
  change (members rt (VList [VStr name])) with
    (@inr exn _ ([VStr name], @nil float)).
  cbn [bind]. unfold compute_stats.
  change (dict_get (lit "average_price") (VInt 0) _) with price.
  change (dict_get (lit "unified_name") (VStr (lit "Unknown")) _)
    with (VStr name).
  change (dict_get (lit "confidence_level") (VInt 0) _) with confidence.
  change (dict_get (lit "sources") (VList []) _)
    with (VList [VStr (lit "extracted")]).
  assert (Hstats : exists st,
    bind (py_gt_zero price) (fun positive =>
      if positive then
        bind (py_float price) (fun avg =>
          ret {| Stats.avg_price := PyFloat avg;
                 Stats.min_price := PyFloat avg;
                 Stats.max_price := PyFloat avg;
                 Stats.price_variance := PyInt 0 |})
      else
        ret {| Stats.avg_price := PyInt 0;
               Stats.min_price := PyInt 0;
               Stats.max_price := PyInt 0;
               Stats.price_variance := PyInt 0 |}) = inr st).
  { destruct Hp as [Hp|[f Hp]]; subst price.
    - eexists. reflexivity.
    - cbn [py_gt_zero bind ret].
      destruct (flt (S754_zero false) f); eexists; reflexivity. }
  destruct Hstats as [st Hst]. rewrite Hst. cbn [bind].
  assert (Hconf : exists f, py_float confidence = inr f).
  { destruct Hc as [Hc|[f Hc]]; subst confidence; eexists; reflexivity. }
  destruct Hconf as [f Hf]. rewrite Hf.
  eexists. split; [reflexivity |]. repeat split.
Qed.

Lemma process_groups_synthetic (rt : Runtime) (names : list str)
    (gs : list value) :
  Forall2 synthetic_for names gs ->
  forall rows, exists rows',
    process_groups rt gs rows = inr (rows ++ rows') /\
    List.length rows' = List.length gs /\
    Forall (fun r => source_count r = 1 /\ sources r = lit "extracted")
      rows'.
Proof.
  intros H. induction H as [|name g names gs Hg Hgs IH]; intros rows.
  - exists []. rewrite app_nil_r. repeat split. constructor.
  - assert (Hd : exists d, g = VDict d)
      by (destruct Hg as [p [c [Hd _]]]; eexists; exact Hd).
    destruct Hd as [d Hd]. subst g.
    destruct (process_group_synthetic rt name d Hg)
      as [r [Hr [_ [_ [Hcount Hsrc]]]]].
    destruct (IH (rows ++ [r])) as [rows' [Hp [Hlen Hall]]].
    exists (r :: rows'). simpl. rewrite Hr. cbn [bind]. rewrite Hp.
    rewrite <- app_assoc. repeat split; [simpl; rewrite Hlen; reflexivity |].
    constructor; [split; assumption | exact Hall].
Qed.

Lemma Forall_perm (P : row -> Prop) (l l' : list row) :
  Permutation l l' -> Forall P l -> Forall P l'.
Proof.
  intros Hp. rewrite !Forall_forall. intros H x Hx.
  apply H. eapply Permutation_in; [apply Permutation_sym; exact Hp | exact Hx].
Qed.

(** X10.  When the raw answer does not contain the key "unified_products"
    and the manual extraction returns at least one group, the main
    report is written with one row per extracted group, each with source
    count 1 and the source "extracted": extracted groups are never
    rejected later. *)
Theorem extracted_groups_are_reported (rt : Runtime) (raw_content : str)
    (gs : list value) (fs : filesystem) :
  find_json_start raw_content = None ->
  _extract_products_manually raw_content = inr gs ->
  gs <> [] ->
  fst (_process_csv_output rt (TaskOutput (VStr raw_content)) fs)
    = main_csv_path /\
  exists f,
    read_file main_csv_path
      (snd (_process_csv_output rt (TaskOutput (VStr raw_content)) fs))
      = Some f /\
    List.length (table f) = List.length gs /\
    Forall (fun r => source_count r = 1 /\ sources r = lit "extracted")
      (table f).
Proof.
  intros Hs He Hne.
  assert (Hshape : Forall2 synthetic_for (findall name_pattern raw_content) gs)
    by (eapply build_groups_shape; exact He).
  destruct (process_groups_synthetic rt _ gs Hshape []) as [rows [Hp [Hl Ha]]].
  simpl in Hp.
  assert (Hrows : rows <> [])
    by (destruct rows; [destruct gs; [contradiction | discriminate]
                       | discriminate]).
  assert (H : _process_csv_output rt (TaskOutput (VStr raw_content)) fs
              = write_report (sort_values rows) fs).
  { unfold _process_csv_output, process_body, groups_of_text.
    cbn [bind ret]. rewrite Hs, He. cbn [bind ret].
    fold (report_of_groups rt gs fs).
    apply report_of_rows; assumption. }
  rewrite H. split; [reflexivity |].
  eexists. split; [reflexivity |]. cbn [table]. split.
  - rewrite <- Hl. symmetry. apply Permutation_length.
    apply sort_values_perm.
  - eapply Forall_perm; [apply sort_values_perm | exact Ha].
Qed.

Lemma extracted_groups_witness :
  fst (_process_csv_output sample_runtime
         (TaskOutput (VStr three_matches)) []) = main_csv_path.
Proof.
  refine (proj1 (extracted_groups_are_reported sample_runtime three_matches
                   [ synthetic_group "Election winner" (f_dec 55 (-2))
                       (float_of_Z 85);
                     synthetic_group "Bitcoin above 100k" (f_dec 3 (-1))
                       (f_dec 725 (-1));
                     synthetic_group "Nobel Peace Prize" (f_dec 1 (-1))
                       (float_of_Z 60) ] [] _ _ _)).
  - vm_compute. reflexivity.
  - vm_compute. reflexivity.
  - discriminate.
Defined.

(* ================================================================== *)
(** * Further properties of the report and of the flow *)

Lemma str_eqb_refl (s : str) : str_eqb s s = true.
Proof.
  induction s as [|c s IH]; [reflexivity |].
  simpl. rewrite char_eqb_refl, IH. reflexivity.
Qed.

Lemma str_eqb_eq (a b : str) : str_eqb a b = true -> a = b.
Proof.
  revert b. induction a as [|x a IH]; intros [|y b]; simpl;
    try discriminate; [reflexivity |].
  intros H. apply andb_true_iff in H. destruct H as [Hc Hs].
  apply N.eqb_eq in Hc. rewrite Hc, (IH b Hs). reflexivity.
Qed.

Lemma read_after_write (path : str) (f : csv_file) (fs : filesystem) :
  read_file path (write_file path f fs) = Some f.
Proof. unfold write_file. simpl. rewrite str_eqb_refl. reflexivity. Qed.

Lemma read_other_after_write (path other : str) (f : csv_file)
    (fs : filesystem) :
  other <> path ->
  read_file other (write_file path f fs) = read_file other fs.
Proof.
  intros H. unfold write_file. simpl.
  destruct (str_eqb other path) eqn:E; [| reflexivity].
  apply str_eqb_eq in E. contradiction.
Qed.

Lemma build_report_rows (rt : Runtime) (product_groups : value)
    (df : list row) :
  build_report rt product_groups = inr (Report df) ->
  exists groups rows,
    iterate product_groups = inr groups /\
    process_groups rt groups [] = inr rows /\
    rows <> [] /\ df = sort_values rows.
Proof.
  unfold build_report.
  destruct (negb (truthy product_groups)); [discriminate |].
  destruct (py_len product_groups) as [e|n]; [discriminate |].
  cbn [bind].
  destruct (iterate product_groups) as [e|groups]; [discriminate |].
  cbn [bind].
  destruct (process_groups rt groups []) as [e|rows] eqn:Ep; [discriminate |].
  cbn [bind]. destruct rows as [|r rows]; [discriminate |].
  intros H. inversion H. exists groups, (r :: rows).
  split; [reflexivity |]. split; [exact Ep |].
  split; [discriminate | reflexivity].
Qed.

Lemma process_body_rows (rt : Runtime) (unified_products : py_object)
    (df : list row) :
  process_body rt unified_products = inr (Report df) ->
  exists groups rows,
    process_groups rt groups [] = inr rows /\
    rows <> [] /\ df = sort_values rows.
Proof.
  unfold process_body.
  destruct unified_products as [raw|v]; [| discriminate].
  cbn [bind ret]. destruct raw as [| b | z | f | text | l | d];
    try discriminate.
  - destruct (groups_of_text rt text) as [e|pg]; [discriminate |].
    cbn [bind]. intros H. apply build_report_rows in H.
    destruct H as [groups [rows [_ H]]]. exists groups, rows. exact H.
  - intros H. apply build_report_rows in H.
    destruct H as [groups [rows [_ H]]]. exists groups, rows. exact H.
Qed.

Lemma sort_values_nonempty (rows : list row) :
  rows <> [] -> sort_values rows <> [].
Proof.
  intros H E. apply H.
  apply Permutation_nil. rewrite <- E. apply Permutation_sym.
  apply sort_values_perm.
Qed.

(** X11.  Whatever it is given, [_process_csv_output] returns the name of
    the main report or of the fallback file, the file of that name has
    been written and its table is not empty, and no file of another name
    is changed. *)
Theorem process_csv_output_always_writes (rt : Runtime)
    (unified_products : py_object) (fs : filesystem) :
  let path := fst (_process_csv_output rt unified_products fs) in
  let fs' := snd (_process_csv_output rt unified_products fs) in
  (path = main_csv_path \/ path = fallback_csv_path) /\
  (exists f, read_file path fs' = Some f /\ table f <> []) /\
  (forall other, other <> path -> read_file other fs' = read_file other fs).
Proof.
  cbv zeta. unfold _process_csv_output, finish.
  destruct (process_body rt unified_products) as [e|[df|]] eqn:E.
  - split; [right; reflexivity |]. split.
    + eexists. split; [reflexivity | discriminate].
    + intros other H. apply read_other_after_write. exact H.
  - apply process_body_rows in E.
    destruct E as [groups [rows [_ [Hne Hdf]]]].
    split; [left; reflexivity |]. split.
    + eexists. split; [reflexivity |]. cbn [table]. subst df.
      apply sort_values_nonempty. exact Hne.
    + intros other H. unfold write_report. cbn [snd fst] in *.
      rewrite !read_other_after_write by exact H. reflexivity.
  - split; [right; reflexivity |]. split.
    + eexists. split; [reflexivity | discriminate].
    + intros other H. apply read_other_after_write. exact H.
Qed.

Lemma process_groups_count (rt : Runtime) (groups : list value) :
  forall rows rows',
    process_groups rt groups rows = inr rows' ->
    List.length rows' =
    (List.length rows + List.length (List.filter is_dict groups))%nat.
Proof.
  induction groups as [|g groups IH]; intros rows rows' H.
  - simpl in H. inversion H. simpl. lia.
  - destruct g as [| b | z | f | s | l | d]; simpl in H;
      try (apply IH in H; simpl; exact H).
    destruct (process_group rt d) as [e|r]; [discriminate |].
    cbn [bind] in H. apply IH in H. rewrite length_app in H.
    simpl in *. lia.
Qed.

Lemma filter_count_le (p : row -> bool) (l : list row) :
  0 <= count_rows p l <= Z.of_nat (List.length l).
Proof.
  unfold count_rows. pose proof (List.filter_length_le p l). lia.
Qed.

(** X12.  When the groups of an answer give the main report, its summary
    block is present, its total is the number of rows of the table and
    the number of dictionary records of the batch, and the counts of
    high-confidence and multi-source products lie between 0 and the
    total. *)
Theorem summary_counts_the_records (rt : Runtime) (groups : list value)
    (fs : filesystem) :
  fst (_process_csv_output rt (answer_of groups) fs) = main_csv_path ->
  exists f s,
    read_file main_csv_path
      (snd (_process_csv_output rt (answer_of groups) fs)) = Some f /\
    summary_block f = Some s /\
    total_products s = Z.of_nat (List.length (table f)) /\
    total_products s =
      Z.of_nat (List.length (List.filter is_dict groups)) /\
    0 <= high_confidence_products s <= total_products s /\
    0 <= multi_source_products s <= total_products s.
Proof.
  rewrite process_csv_output_answer.
  unfold report_of_groups, finish.
  destruct (build_report rt (VList groups)) as [e|[df|]] eqn:E;
    try (intros H; vm_compute in H; discriminate).
  intros _. apply build_report_rows in E.
  destruct E as [groups' [rows [Hit [Hp [Hne Hdf]]]]].
  cbn [iterate ret] in Hit. inversion Hit; subst groups'. clear Hit.
  apply process_groups_count in Hp. simpl in Hp.
  exists {| summary_block := Some (summarize df); table := df |},
         (summarize df).
  split; [reflexivity |]. split; [reflexivity |].
  cbn [table summarize total_products high_confidence_products
       multi_source_products].
  split; [reflexivity |]. split.
  - subst df. rewrite <- Hp. f_equal. symmetry.
    apply Permutation_length. apply sort_values_perm.
  - split; apply filter_count_le.
Qed.

Lemma summary_counts_witness :
  exists f s,
    read_file main_csv_path
      (snd (_process_csv_output sample_runtime (answer_of sorting_example)
              [])) = Some f /\
    summary_block f = Some s /\ total_products s = 3.
Proof.
  destruct (summary_counts_the_records sample_runtime sorting_example [])
    as [f [s [H1 [H2 [_ [H4 _]]]]]].
  - vm_compute. reflexivity.
  - exists f, s. split; [exact H1 |]. split; [exact H2 | exact H4].
Defined.

(** X13.  An object without the attribute [raw], such as a plain list of
    groups, always gives the fallback file, even when the same groups
    passed as the raw answer of a task give the main report. *)
Theorem plain_groups_are_not_reported (rt : Runtime) (groups : list value)
    (rows : list row) (fs : filesystem) :
  process_groups rt groups [] = inr rows -> rows <> [] ->
  _process_csv_output rt (answer_of groups) fs
    = write_report (sort_values rows) fs /\
  _process_csv_output rt (Plain (VList groups)) fs = _create_fallback_csv fs /\
  fst (_process_csv_output rt (answer_of groups) fs)
    <> fst (_process_csv_output rt (Plain (VList groups)) fs).
Proof.
  intros Hp Hne.
  assert (H : _process_csv_output rt (answer_of groups) fs
              = write_report (sort_values rows) fs).
  { rewrite process_csv_output_answer. apply report_of_rows; assumption. }
  rewrite H. split; [reflexivity |]. split; [reflexivity |].
  vm_compute. discriminate.
Qed.

Lemma plain_groups_witness :
  _process_csv_output sample_runtime (Plain (VList sorting_example)) []
    = _create_fallback_csv [].
Proof.
  refine (proj1 (proj2 (plain_groups_are_not_reported sample_runtime
                          sorting_example _ [] _ _))).
  - vm_compute. reflexivity.
  - discriminate.
Defined.

(** ** The flow *)

Lemma process_csv_output_path (rt : Runtime) (unified_products : py_object)
    (fs : filesystem) :
  fst (_process_csv_output rt unified_products fs) = main_csv_path \/
  fst (_process_csv_output rt unified_products fs) = fallback_csv_path.
Proof.
  unfold _process_csv_output, finish.
  destruct (process_body rt unified_products) as [e|[df|]];
    [right | left | right]; reflexivity.
Qed.

(** X14.  [run_flow] always returns one of the three file names.  When
    the engine itself fails, it is the error file, which is then written
    with a single row of category "Error" carrying the message;
    otherwise it is the main report or the fallback file. *)
Theorem run_flow_path_is_known (rt : Runtime) (w : collaborators)
    (fs : filesystem) :
  (kickoff_failure w = None ->
   fst (run_flow rt w fs) = main_csv_path \/
   fst (run_flow rt w fs) = fallback_csv_path) /\
  (forall message, kickoff_failure w = Some message ->
     fst (run_flow rt w fs) = error_csv_path /\
     read_file error_csv_path (snd (run_flow rt w fs))
       = Some {| summary_block := None; table := [error_row message] |} /\
     source_products (error_row message) = message /\
     category (error_row message) = lit "Error").
Proof.
  split.
  - intros Hk. unfold run_flow, kickoff. rewrite Hk.
    unfold generate_csv.
    destruct (analysis_status (analyze_products w (collect_data w)));
      try (right; reflexivity).
    destruct (csv_task w) as [e|u]; [right; reflexivity |].
    pose proof (process_csv_output_path rt
                  (unified_products (analyze_products w (collect_data w)))
                  fs) as Hp.
    destruct (_process_csv_output rt _ fs) as [path fs'].
    cbn [fst] in Hp. cbn [csv_path].
    destruct Hp as [Hp|Hp]; subst path; [left | right]; reflexivity.
  - intros message Hk. unfold run_flow, kickoff. rewrite Hk.
    repeat split.
Qed.

(** X15.  When the engine does not fail but the collection task, the
    analysis task or the report task raises, [run_flow] returns the name
    of the fallback file and writes nothing: the files are as they were
    before the run. *)
Theorem run_flow_failure_writes_nothing (rt : Runtime) (w : collaborators)
    (fs : filesystem) :
  kickoff_failure w = None ->
  (exists e, collection_task w = inl e) \/
  (exists e, analysis_task w = inl e) \/
  (exists e, csv_task w = inl e) ->
  run_flow rt w fs = (fallback_csv_path, fs).
Proof.
  intros Hk Hfail. unfold run_flow, kickoff. rewrite Hk.
  unfold generate_csv, analyze_products, collect_data.
  destruct (collection_task w) as [e1|r] eqn:E1; [reflexivity |].
  cbn [collect_status].
  destruct (analysis_task w) as [e2|out] eqn:E2; [reflexivity |].
  cbn [analysis_status unified_products].
  destruct (csv_task w) as [e3|u] eqn:E3; [reflexivity |].
  destruct Hfail as [[e H]|[[e H]|[e H]]]; discriminate.
Qed.

Lemma run_flow_failure_witness :
  run_flow sample_runtime analysis_fails [] = (fallback_csv_path, []).
Proof.
  apply (run_flow_failure_writes_nothing sample_runtime analysis_fails []).
  - reflexivity.
  - right. left. exists TaskError. reflexivity.
Defined.

Lemma process_csv_output_written (rt : Runtime)
    (unified_products : py_object) (fs : filesystem) :
  exists f,
    read_file (fst (_process_csv_output rt unified_products fs))
      (snd (_process_csv_output rt unified_products fs)) = Some f /\
    table f <> [].
Proof.
  unfold _process_csv_output, finish.
  destruct (process_body rt unified_products) as [e|[df|]] eqn:E.
  - eexists. split; [reflexivity | discriminate].
  - apply process_body_rows in E.
    destruct E as [groups [rows [_ [Hne Hdf]]]].
    eexists. split; [reflexivity |]. cbn [table]. subst df.
    apply sort_values_nonempty. exact Hne.
  - eexists. split; [reflexivity | discriminate].
Qed.

(** X20.  When the engine does not fail and the three tasks succeed,
    [run_flow] returns what [_process_csv_output] returns for the answer
    of the analysis: a path that names a file written during the run,
    with a table that is not empty. *)
Theorem run_flow_writes_when_tasks_succeed (rt : Runtime)
    (w : collaborators) (fs : filesystem) (out : py_object) (r : value)
    (u : unit) :
  kickoff_failure w = None ->
  collection_task w = inr r ->
  analysis_task w = inr out ->
  csv_task w = inr u ->
  run_flow rt w fs = _process_csv_output rt out fs /\
  exists f,
    read_file (fst (run_flow rt w fs)) (snd (run_flow rt w fs)) = Some f /\
    table f <> [].
Proof.
  intros Hk Hc Ha Ht.
  destruct (run_flow_success rt w fs out r u Hk Hc Ha Ht) as [H _].
  rewrite H. split; [reflexivity |]. apply process_csv_output_written.
Qed.

Lemma run_flow_writes_witness :
  run_flow sample_runtime (all_succeed (VDict [])) []
    = _process_csv_output sample_runtime (TaskOutput (VDict [])) [].
Proof.
  exact (proj1 (run_flow_writes_when_tasks_succeed sample_runtime
                  (all_succeed (VDict [])) [] (TaskOutput (VDict []))
                  (VStr (lit "collected")) tt
                  eq_refl eq_refl eq_refl eq_refl)).
Defined.

(* ================================================================== *)
(** * Further properties of the search for the JSON text *)

Lemma find_from_none (sub s : str) :
  forall i, find_from sub s i = None <-> str_contains sub s = false.
Proof.
  induction s as [|c s IH]; intros i; simpl.
  - destruct (starts_with sub []); simpl; split; intros H;
      try discriminate; reflexivity.
  - destruct (starts_with sub (c :: s)); simpl.
    + split; discriminate.
    + apply IH.
Qed.

Lemma starts_with_inv (p s : str) :
  starts_with p s = true -> exists rest, s = p ++ rest.
Proof.
  revert s. induction p as [|x p IH]; intros s H.
  - exists s. reflexivity.
  - destruct s as [|y s]; [discriminate |]. simpl in H.
    apply andb_true_iff in H. destruct H as [Hc Hs].
    apply N.eqb_eq in Hc. subst y.
    destruct (IH s Hs) as [rest Hr]. exists rest. simpl. rewrite Hr.
    reflexivity.
Qed.

Lemma str_contains_longer (before k s : str) :
  str_contains (before ++ k) s = true -> str_contains k s = true.
Proof.
  induction s as [|c s IH].
  - simpl. rewrite orb_false_r. intros H.
    apply starts_with_inv in H. destruct H as [rest Hr].
    symmetry in Hr. apply app_eq_nil in Hr. destruct Hr as [Hr _].
    apply app_eq_nil in Hr. destruct Hr as [_ Hk]. subst k. reflexivity.
  - intros H. cbn [str_contains] in H. apply orb_true_iff in H.
    destruct H as [H|H].
    + apply starts_with_inv in H. destruct H as [rest Hr]. rewrite Hr.
      rewrite <- app_assoc. apply str_contains_middle.
    + cbn [str_contains]. rewrite (IH H). apply orb_true_r.
Qed.

Lemma start_marker_ends_with_key (indent : nat) :
  start_marker indent =
  (123%N :: 10%N :: List.repeat 32%N indent)
  ++ key_marker "unified_products".
Proof. reflexivity. Qed.

(** X16.  The search for the JSON text finds a start exactly when the raw
    answer contains the key "unified_products" followed by a colon;
    otherwise the groups come from the manual extraction alone and the
    JSON decoder is not consulted. *)
Theorem json_start_iff_key (rt : Runtime) (raw_content : str) :
  (find_json_start raw_content = None <->
   str_contains (key_marker "unified_products") raw_content = false) /\
  (str_contains (key_marker "unified_products") raw_content = false ->
   groups_of_text rt raw_content =
   bind (_extract_products_manually raw_content)
     (fun gs => ret (VList gs))).
Proof.
  assert (Hiff : find_json_start raw_content = None <->
                 str_contains (key_marker "unified_products") raw_content
                 = false).
  { unfold find_json_start, str_find. split.
    - intros H.
      destruct (find_from (start_marker 4) raw_content 0); [discriminate |].
      destruct (find_from (start_marker 2) raw_content 0); [discriminate |].
      destruct (find_from (key_marker "unified_products") raw_content 0)
        eqn:E; [discriminate |].
      apply find_from_none in E. exact E.
    - intros H.
      assert (H4 : find_from (start_marker 4) raw_content 0 = None).
      { apply find_from_none.
        destruct (str_contains (start_marker 4) raw_content) eqn:E;
          [| reflexivity].
        rewrite start_marker_ends_with_key in E.
        apply str_contains_longer in E. congruence. }
      assert (H2 : find_from (start_marker 2) raw_content 0 = None).
      { apply find_from_none.
        destruct (str_contains (start_marker 2) raw_content) eqn:E;
          [| reflexivity].
        rewrite start_marker_ends_with_key in E.
        apply str_contains_longer in E. congruence. }
      rewrite H4, H2.
      apply (find_from_none _ _ 0%nat) in H. rewrite H. reflexivity. }
  split; [exact Hiff |].
  intros H. apply Hiff in H. unfold groups_of_text. rewrite H. reflexivity.
Qed.

(** ** The candidate between the braces *)

Lemma count_char_cons (c x : char) (s : str) :
  count_char c (x :: s) =
  ((if char_eqb x c then 1 else 0) + count_char c s)%nat.
Proof.
  unfold count_char, char_eqb. simpl. rewrite (N.eqb_sym c x).
  destruct (x =? c)%N; reflexivity.
Qed.

Lemma scan_braces_spec (s : str) :
  forall i brace_count e,
    scan_braces s i brace_count = Some e ->
    exists k, e = (i + k)%nat /\ (1 <= k <= List.length s)%nat /\
      brace_count + Z.of_nat (count_char 123%N (List.firstn k s))
        - Z.of_nat (count_char 125%N (List.firstn k s)) = 0 /\
      List.nth_error s (k - 1) = Some 125%N.
Proof.
  induction s as [|c s IH]; intros i brace_count e H; [discriminate |].
  cbn [scan_braces] in H.
  destruct (char_eqb c 123%N) eqn:Eo.
  - assert (Ec : char_eqb c 125%N = false).
    { apply N.eqb_eq in Eo. subst c. reflexivity. }
    apply IH in H. destruct H as [k [He [Hk [Hb Hn]]]].
    exists (S k). split; [lia |]. split; [simpl; lia |].
    cbn [List.firstn]. rewrite !count_char_cons, Eo, Ec.
    split; [lia |].
    destruct k as [|k']; [lia |]. simpl. simpl in Hn.
    rewrite Nat.sub_0_r in Hn. exact Hn.
  - destruct (char_eqb c 125%N) eqn:Ec.
    + destruct (brace_count - 1 =? 0) eqn:Ez.
      * inversion H; subst. exists 1%nat.
        split; [lia |]. split; [simpl; lia |].
        cbn [List.firstn]. rewrite !count_char_cons, Eo, Ec.
        apply Z.eqb_eq in Ez.
        split; [unfold count_char; simpl; lia |].
        simpl. apply N.eqb_eq in Ec. subst c. reflexivity.
      * apply IH in H. destruct H as [k [He [Hk [Hb Hn]]]].
        exists (S k). split; [lia |]. split; [simpl; lia |].
        cbn [List.firstn]. rewrite !count_char_cons, Eo, Ec.
        split; [lia |].
        destruct k as [|k']; [lia |]. simpl. simpl in Hn.
        rewrite Nat.sub_0_r in Hn. exact Hn.
    + apply IH in H. destruct H as [k [He [Hk [Hb Hn]]]].
      exists (S k). split; [lia |]. split; [simpl; lia |].
      cbn [List.firstn]. rewrite !count_char_cons, Eo, Ec.
      split; [lia |].
      destruct k as [|k']; [lia |]. simpl. simpl in Hn.
      rewrite Nat.sub_0_r in Hn. exact Hn.
Qed.

(** X17.  When the brace-counting loop finds an end, the text handed to
    the JSON decoder is not empty, lies within the raw answer, ends with
    a closing brace and has as many opening as closing braces. *)
Theorem json_candidate_is_balanced (raw_content : str)
    (json_start json_end : nat) :
  find_json_end raw_content json_start = Some json_end ->
  (json_start < json_end <= List.length raw_content)%nat /\
  List.length (slice raw_content json_start json_end)
    = (json_end - json_start)%nat /\
  count_char 123%N (slice raw_content json_start json_end) =
  count_char 125%N (slice raw_content json_start json_end) /\
  List.nth_error (slice raw_content json_start json_end)
    (json_end - json_start - 1) = Some 125%N.
Proof.
  unfold find_json_end, slice. intros H.
  apply scan_braces_spec in H. destruct H as [k [He [Hk [Hb Hn]]]].
  rewrite length_skipn in Hk.
  replace (json_end - json_start)%nat with k by lia.
  split; [lia |]. split.
  - rewrite length_firstn, length_skipn. lia.
  - split; [lia |].
    rewrite nth_error_firstn.
    destruct (Nat.ltb_spec (k - 1) k) as [Hlt|Hge]; [exact Hn | lia].
Qed.

Lemma json_candidate_witness :
  (2 < 9 <= List.length (lit "a {x{y}z} b}"))%nat /\
  count_char 123%N (slice (lit "a {x{y}z} b}") 2 9) =
  count_char 125%N (slice (lit "a {x{y}z} b}") 2 9).
Proof.
  destruct (json_candidate_is_balanced (lit "a {x{y}z} b}") 2 9)
    as [H1 [_ [H3 _]]].
  - vm_compute. reflexivity.
  - split; [exact H1 | exact H3].
Defined.

Lemma find_from_some (sub s : str) :
  forall i j, find_from sub s i = Some j ->
    exists k, j = (i + k)%nat /\ starts_with sub (List.skipn k s) = true.
Proof.
  induction s as [|c s IH]; intros i j H; simpl in H.
  - destruct (starts_with sub []) eqn:E; [| discriminate].
    inversion H. exists 0%nat. split; [lia | exact E].
  - destruct (starts_with sub (c :: s)) eqn:E.
    + inversion H. exists 0%nat. split; [lia | exact E].
    + apply IH in H. destruct H as [k [Hj Hs]].
      exists (S k). split; [lia | exact Hs].
Qed.

Lemma starts_with_head (c : char) (sub s : str) (k : nat) :
  starts_with (c :: sub) (List.skipn k s) = true ->
  List.nth_error s k = Some c.
Proof.
  revert s. induction k as [|k IH]; intros s H.
  - destruct s as [|y s]; [discriminate |]. simpl in H.
    apply andb_true_iff in H. destruct H as [Hc _].
    apply N.eqb_eq in Hc. subst y. reflexivity.
  - destruct s as [|y s]; [discriminate |]. simpl. apply IH. exact H.
Qed.

Lemma last_brace_spec (s : str) :
  forall i found,
    match last_brace s i found with
    | Some j =>
        (found = Some j /\ count_char 123%N s = 0%nat) \/
        (exists k, j = (i + k)%nat /\ List.nth_error s k = Some 123%N)
    | None => found = None /\ count_char 123%N s = 0%nat
    end.
Proof.
  induction s as [|c s IH]; intros i found.
  - simpl. destruct found; [left |]; split; reflexivity.
  - cbn [last_brace]. rewrite count_char_cons.
    specialize (IH (S i) (if char_eqb c 123%N then Some i else found)).
    destruct (last_brace s (S i) (if char_eqb c 123%N then Some i else found))
      as [j|].
    + destruct IH as [[Hf Hc]|[k [Hj Hn]]].
      * destruct (char_eqb c 123%N) eqn:E.
        -- right. exists 0%nat. inversion Hf. split; [lia |].
           simpl. apply N.eqb_eq in E. subst c. reflexivity.
        -- left. split; [exact Hf | simpl; exact Hc].
      * right. exists (S k). split; [lia | exact Hn].
    + destruct IH as [Hf Hc].
      destruct (char_eqb c 123%N); [discriminate |].
      split; [exact Hf | simpl; exact Hc].
Qed.

(** X18.  The start found for the JSON text is the position of an opening
    brace, unless the raw answer has no opening brace at or before the
    key "unified_products": then it is the position of the key itself. *)
Theorem json_start_is_at_a_brace (raw_content : str) (json_start : nat) :
  find_json_start raw_content = Some json_start ->
  List.nth_error raw_content json_start = Some 123%N \/
  (count_char 123%N (List.firstn (S json_start) raw_content) = 0%nat /\
   starts_with (key_marker "unified_products")
     (List.skipn json_start raw_content) = true).
Proof.
  unfold find_json_start, str_find. intros H.
  destruct (find_from (start_marker 4) raw_content 0) as [i|] eqn:E4.
  { inversion H; subst. apply find_from_some in E4.
    destruct E4 as [k [Hk Hs]]. left. simpl in Hk. subst.
    eapply starts_with_head. exact Hs. }
  destruct (find_from (start_marker 2) raw_content 0) as [i|] eqn:E2.
  { inversion H; subst. apply find_from_some in E2.
    destruct E2 as [k [Hk Hs]]. left. simpl in Hk. subst.
    eapply starts_with_head. exact Hs. }
  destruct (find_from (key_marker "unified_products") raw_content 0)
    as [i|] eqn:E; [| discriminate].
  inversion H; subst. clear H.
  apply find_from_some in E. destruct E as [k [Hk Hs]]. simpl in Hk. subst k.
  unfold back_to_brace.
  pose proof (last_brace_spec (List.firstn (S i) raw_content) 0 None) as Hl.
  destruct (last_brace (List.firstn (S i) raw_content) 0 None) as [j|].
  - destruct Hl as [[Hf _]|[k [Hj Hn]]]; [discriminate |].
    left. simpl in Hj. subst k.
    rewrite nth_error_firstn in Hn.
    destruct (Nat.ltb_spec j (S i)); [exact Hn | discriminate].
  - destruct Hl as [_ Hc]. right. split; [exact Hc | exact Hs].
Qed.

Lemma json_start_witness :
  List.nth_error
    (lit "Here: {" ++ key_marker "unified_products" ++ lit " []}") 6
  = Some 123%N \/
  (count_char 123%N
     (List.firstn 7
        (lit "Here: {" ++ key_marker "unified_products" ++ lit " []}"))
   = 0%nat /\
   starts_with (key_marker "unified_products")
     (List.skipn 6
        (lit "Here: {" ++ key_marker "unified_products" ++ lit " []}"))
   = true).
Proof.
  apply (json_start_is_at_a_brace
           (lit "Here: {" ++ key_marker "unified_products" ++ lit " []}") 6).
  vm_compute. reflexivity.
Defined.

(* ================================================================== *)
(** * A group record without the optional keys *)

(** X19.  A dictionary record that has none of the keys "products",
    "average_price", "confidence_level" and "sources" is not discarded:
    it gives a row with no member, source count 0, the prices and the
    variance 0 and the confidence 0.0, named after its unified name, or
    "Unknown" when that key is missing too. *)
Theorem record_without_keys_gives_zero_row (rt : Runtime)
    (g : list (str * value)) :
  dict_lookup (lit "products") g = None ->
  dict_lookup (lit "average_price") g = None ->
  dict_lookup (lit "confidence_level") g = None ->
  dict_lookup (lit "sources") g = None ->
  let name :=
    py_str rt (dict_get (lit "unified_name") (VStr (lit "Unknown")) g) in
  process_group rt g =
    inr {| unified_name := name;
           source_products := [];
           average_price := PyInt 0;
           price_variance := PyInt 0;
           confidence_level := PyFloat (S754_zero false);
           source_count := 0;
           sources := [];
           category := categorize (str_lower rt name);
           min_price := PyInt 0;
           max_price := PyInt 0 |} /\
  (dict_lookup (lit "unified_name") g = None -> name = lit "Unknown").
Proof.
  intros Hp Ha Hc Hs. cbv zeta. split.
  - unfold process_group, compute_stats, dict_get.
    rewrite Hp, Ha, Hc, Hs. reflexivity.
  - intros Hn. unfold dict_get. rewrite Hn. reflexivity.
Qed.

Lemma record_without_keys_witness :
  process_group sample_runtime [] =
    inr {| unified_name := lit "Unknown";
           source_products := [];
           average_price := PyInt 0;
           price_variance := PyInt 0;
           confidence_level := PyFloat (S754_zero false);
           source_count := 0;
           sources := [];
           category := lit "Other";
           min_price := PyInt 0;
           max_price := PyInt 0 |}.
Proof.
  exact (proj1 (record_without_keys_gives_zero_row sample_runtime []
                  eq_refl eq_refl eq_refl eq_refl)).
Defined.
